(** * pymeschooldata: the rpy2 wrapper around the R package meschooldata

    A shallow embedding of [pymeschooldata/core.py]: the lazily loaded
    package handle [_pkg], the three table operations [fetch_enr],
    [fetch_enr_multi] and [tidy_enr], and [get_available_years] with its
    normalization of the value that the bridge hands back.

    Python values are an inductive type; whatever lives outside the
    repository (rpy2's [importr], its converters, and the functions of the R
    package) is a parameter of the development. The module-level global
    [_pkg] and the calls that cross the bridge are threaded through an
    explicit state. *)

From stdpp Require Import base option list strings pretty gmap.
From Stdlib Require Import ZArith Ascii String.

Set Warnings "-register-all".

Local Open Scope string_scope.
Local Open Scope Z_scope.

(** ** Results and exceptions *)

Inductive result (E A : Type) : Type :=
| Ok (a : A)
| Raise (e : E).
Arguments Ok {E A} a.
Arguments Raise {E A} e.

(** Exceptions raised by a callee of the wrapper: a Python builtin, rpy2 or
    the R package. Messages of builtin exceptions are left out. *)
Inductive exn : Type :=
| TypeError
| ValueError
| OverflowError
| IndexError
| KeyError (key : string)
| PackageNotInstalledError (name : string)
| RRuntimeError (msg : string)
| OtherError (cls msg : string).

(** What [type(x)] evaluates to. *)
Inductive pytype : Type :=
| TNoneType | TBool | TInt | TFloat | TStr | TList | TDict
| TClass (name : string).

(** What an operation of the wrapper raises. The only exception the wrapper
    constructs itself is the one on the last line of [get_available_years],
    [TypeError(f"Unexpected return type from get_available_years:
    {type(r_result)}")]; it is kept apart from the exceptions that merely
    pass through the wrapper. *)
Inductive error : Type :=
| UnexpectedReturnType (observed : pytype)
| Propagated (e : exn).

Definition propagate {A} (r : result exn A) : result error A :=
  match r with
  | Ok a => Ok a
  | Raise e => Raise (Propagated e)
  end.

#[global] Instance result_ret {E} : MRet (result E) := fun _ a => Ok a.
#[global] Instance result_bind {E} : MBind (result E) := fun _ _ f m =>
  match m with
  | Ok a => f a
  | Raise e => Raise e
  end.

(** ** Python values *)

(** A float is NaN, an infinity, or the finite value [m * 2^e]. *)
Inductive pyfloat : Type :=
| FNaN
| FInf (negative : bool)
| FFinite (m e : Z).

(** Cells and tables: named columns, each a sequence of values. The wrapper
    never looks inside a table. *)
Inductive cell : Type :=
| NA
| IntCell (z : Z)
| StrCell (s : string).

Definition table : Type := list (string * list cell).

(** Whether an object is a [pandas.DataFrame], an R data frame that has not
    been converted, or neither. *)
Inductive tabular : Type :=
| NativeTable (t : table)
| ForeignTable (t : table)
| NotTable.

(** An object of a class that is not one of the builtins below (an rpy2
    wrapper, a pandas object, ...), given by its answers to what the wrapper
    asks of it. *)
Record pyobj (V : Type) : Type := MkObj {
  ob_class : string;                          (* the name of type(o) *)
  ob_table : tabular;
  ob_rx2 : option (string -> result exn V);   (* None: hasattr(o, "rx2") is False *)
  ob_names : option V;                        (* None: o has no attribute `names` *)
  ob_getitem : Z -> result exn V;             (* o[i] *)
  ob_int : result exn Z;                      (* int(o) *)
  ob_has_iter : bool;                         (* callable(getattr(o, "__iter__", None)) *)
  ob_iterate : list V * option exn            (* the items that iterating o yields, and
                                                 the exception that ends it, if any *)
}.
Arguments MkObj {V}.
Arguments ob_class {V}.
Arguments ob_table {V}.
Arguments ob_rx2 {V}.
Arguments ob_names {V}.
Arguments ob_getitem {V}.
Arguments ob_int {V}.
Arguments ob_has_iter {V}.
Arguments ob_iterate {V}.

(** A [str] is given by its UTF-8 bytes. A [dict] has [str] keys, as the
    bridge builds it from a named R list, and is given by the pairs it was
    built from, in order: a key that is set again keeps its place and takes
    the later value. *)
Inductive pyval : Type :=
| PyNone
| PyBool (b : bool)
| PyInt (z : Z)
| PyFloat (f : pyfloat)
| PyStr (s : string)
| PyList (l : list pyval)
| PyDict (d : list (string * pyval))
| PyObj (o : pyobj pyval).

Definition py_type (v : pyval) : pytype :=
  match v with
  | PyNone => TNoneType
  | PyBool _ => TBool
  | PyInt _ => TInt
  | PyFloat _ => TFloat
  | PyStr _ => TStr
  | PyList _ => TList
  | PyDict _ => TDict
  | PyObj o => TClass (ob_class o)
  end.

(** ** The builtins that the wrapper applies to those values *)

(** [int(x)] on a float truncates toward zero; NaN and the infinities are
    refused. *)
Definition float_to_int (f : pyfloat) : result exn Z :=
  match f with
  | FNaN => Raise ValueError
  | FInf _ => Raise OverflowError
  | FFinite m e => if 0 <=? e then Ok (m * 2 ^ e) else Ok (m ÷ 2 ^ (- e))
  end.

(** C's [isspace] in the C locale, which is what [int] strips from both
    ends of the text once it is ASCII. *)
Definition is_space (c : ascii) : bool :=
  let n := nat_of_ascii c in
  ((9 <=? n) && (n <=? 13) || (n =? 32))%nat.

Definition digit_of (c : ascii) : option Z :=
  let n := Z.of_nat (nat_of_ascii c) in
  if (48 <=? n) && (n <=? 57) then Some (n - 48) else None.

Fixpoint lstrip (s : string) : string :=
  match s with
  | String c rest => if is_space c then lstrip rest else s
  | EmptyString => s
  end.

Definition strip (s : string) : string :=
  String.rev (lstrip (String.rev (lstrip s))).

(** Decimal digits, with single underscores allowed between two digits. *)
Fixpoint parse_digits (acc : Z) (after_digit : bool) (s : string) : option Z :=
  match s with
  | EmptyString => if after_digit then Some acc else None
  | String c rest =>
      match digit_of c with
      | Some d => parse_digits (10 * acc + d) true rest
      | None =>
          if Ascii.eqb c "_"%char && after_digit
          then parse_digits acc false rest
          else None
      end
  end.

(** A [str] is held as its UTF-8 bytes. [code_points] cuts it into its code
    points, each with its number and its bytes; a byte that begins no
    well-formed sequence stands alone and has no number. *)
Definition byte (c : ascii) : N := N_of_ascii c.

Definition continues (c : ascii) : bool :=
  ((128 <=? byte c) && (byte c <? 192))%N.

Definition code2 (b1 b2 : ascii) : N :=
  ((byte b1 - 192) * 64 + (byte b2 - 128))%N.

Definition code3 (b1 b2 b3 : ascii) : N :=
  ((byte b1 - 224) * 4096 + (byte b2 - 128) * 64 + (byte b3 - 128))%N.

Definition code4 (b1 b2 b3 b4 : ascii) : N :=
  ((byte b1 - 240) * 262144 + (byte b2 - 128) * 4096 +
   (byte b3 - 128) * 64 + (byte b4 - 128))%N.

Definition bytes2 (b1 b2 : ascii) : bool :=
  ((194 <=? byte b1) && (byte b1 <=? 223))%N && continues b2.

Definition bytes3 (b1 b2 b3 : ascii) : bool :=
  ((224 <=? byte b1) && (byte b1 <=? 239))%N && continues b2 && continues b3 &&
  (2048 <=? code3 b1 b2 b3)%N.

Definition bytes4 (b1 b2 b3 b4 : ascii) : bool :=
  ((240 <=? byte b1) && (byte b1 <=? 244))%N &&
  continues b2 && continues b3 && continues b4 &&
  ((65536 <=? code4 b1 b2 b3 b4) && (code4 b1 b2 b3 b4 <=? 1114111))%N.

Fixpoint code_points (s : string) : list (option N * string) :=
  match s with
  | EmptyString => []
  | String b1 rest1 =>
      let alone :=
        ((if (byte b1 <? 128)%N then Some (byte b1) else None),
         String b1 EmptyString) :: code_points rest1 in
      match rest1 with
      | String b2 rest2 =>
          if bytes2 b1 b2
          then (Some (code2 b1 b2), String b1 (String b2 EmptyString))
                 :: code_points rest2
          else
            match rest2 with
            | String b3 rest3 =>
                if bytes3 b1 b2 b3
                then (Some (code3 b1 b2 b3),
                      String b1 (String b2 (String b3 EmptyString)))
                       :: code_points rest3
                else
                  match rest3 with
                  | String b4 rest4 =>
                      if bytes4 b1 b2 b3 b4
                      then (Some (code4 b1 b2 b3 b4),
                            String b1 (String b2 (String b3 (String b4 EmptyString))))
                             :: code_points rest4
                      else alone
                  | EmptyString => alone
                  end
            | EmptyString => alone
            end
      | EmptyString => alone
      end
  end.

(** The code points of the digit zero of every decimal script (Unicode
    14.0); the nine after each are its digits one to nine. *)
Definition decimal_zeros : list N :=
  [
    48; 1632; 1776; 1984; 2406; 2534; 2662; 2790; 2918; 3046; 3174; 3302;
    3430; 3558; 3664; 3792; 3872; 4160; 4240; 6112; 6160; 6470; 6608; 6784;
    6800; 6992; 7088; 7232; 7248; 42528; 43216; 43264; 43472; 43504; 43600;
    44016; 65296; 66720; 68912; 69734; 69872; 69942; 70096; 70384; 70736;
    70864; 71248; 71360; 71472; 71904; 72016; 72784; 73040; 73120; 92768;
    92864; 93008; 120782; 120792; 120802; 120812; 120822; 123200; 123632;
    125264; 130032
  ]%N.

Definition decimal_of (cp : N) : option N :=
  (fun zero => cp - zero)%N <$>
    List.find (fun zero => (zero <=? cp) && (cp <? zero + 10))%N decimal_zeros.

(** The white space beyond ASCII. *)
Definition unicode_spaces : list N :=
  [
    133; 160; 5760; 8192; 8193; 8194; 8195; 8196; 8197; 8198; 8199; 8200;
    8201; 8202; 8232; 8233; 8239; 8287; 12288
  ]%N.

(** What [int] makes of a code point before it parses: ASCII below 127 is
    kept, white space beyond it becomes a blank, a decimal digit of any
    script becomes its ASCII digit, and anything else is refused. *)
Definition to_ascii (cp : option N) : option ascii :=
  match cp with
  | None => None
  | Some n =>
      if (n <? 127)%N then Some (ascii_of_N n)
      else if existsb (N.eqb n) unicode_spaces then Some " "%char
      else (fun d => ascii_of_N (48 + d)) <$> decimal_of n
  end.

Definition count_digits (s : string) : nat :=
  List.length (List.filter (fun c => bool_decide (is_Some (digit_of c)))
                 (list_ascii_of_string s)).

(** The most digits that [int] converts (CPython 3.11 and later). *)
Definition max_str_digits : nat := 4300.

(** [int(s)] for a [str]: surrounding whitespace, an optional sign, then
    the digits. *)
Definition str_to_int (s : string) : result exn Z :=
  match mapM (fun cp => to_ascii cp.1) (code_points s) with
  | None => Raise ValueError
  | Some text =>
      let body := strip (string_of_list_ascii text) in
      let parsed :=
        match body with
        | String "-" rest => Z.opp <$> parse_digits 0 false rest
        | String "+" rest => parse_digits 0 false rest
        | _ => parse_digits 0 false body
        end in
      match parsed with
      | Some z =>
          if (max_str_digits <? count_digits body)%nat then Raise ValueError
          else Ok z
      | None => Raise ValueError
      end
  end.

(** [int(x)] *)
Definition py_int (x : pyval) : result exn Z :=
  match x with
  | PyNone => Raise TypeError
  | PyBool b => Ok (if b then 1 else 0)
  | PyInt z => Ok z
  | PyFloat f => float_to_int f
  | PyStr s => str_to_int s
  | PyList _ => Raise TypeError
  | PyDict _ => Raise TypeError
  | PyObj o => ob_int o
  end.

(** [seq[i]] for a sequence of length [len]: negative indices count from the
    end. *)
Definition seq_index (len : nat) (i : Z) : option nat :=
  let n := Z.of_nat len in
  if (0 <=? i) && (i <? n) then Some (Z.to_nat i)
  else if (- n <=? i) && (i <? 0) then Some (Z.to_nat (n + i))
  else None.

Fixpoint dict_get (d : list (string * pyval)) (key : string) : option pyval :=
  match d with
  | [] => None
  | (k, v) :: rest =>
      match dict_get rest key with
      | Some later => Some later
      | None => if String.eqb k key then Some v else None
      end
  end.

(** The keys of a dict in the order of iteration: each key once, where it
    was first inserted. *)
Fixpoint dict_keys (seen : list string) (d : list (string * pyval)) : list string :=
  match d with
  | [] => []
  | (k, _) :: rest =>
      if existsb (String.eqb k) seen then dict_keys seen rest
      else k :: dict_keys (k :: seen) rest
  end.

(** [d[key]] on a dict *)
Definition dict_getitem (d : list (string * pyval)) (key : string) : result exn pyval :=
  match dict_get d key with
  | Some v => Ok v
  | None => Raise (KeyError key)
  end.

(** The characters of a [str], one per code point. *)
Definition chars (s : string) : list pyval :=
  (fun cp => PyStr cp.2) <$> code_points s.

(** [x[i]] for an integer [i] *)
Definition py_getitem (x : pyval) (i : Z) : result exn pyval :=
  match x with
  | PyList l =>
      match seq_index (List.length l) i with
      | Some n => match l !! n with Some v => Ok v | None => Raise IndexError end
      | None => Raise IndexError
      end
  | PyStr s =>
      match seq_index (List.length (chars s)) i with
      | Some n => match chars s !! n with Some v => Ok v | None => Raise IndexError end
      | None => Raise IndexError
      end
  | PyDict _ => Raise (KeyError (pretty i))
  | PyObj o => ob_getitem o i
  | PyNone | PyBool _ | PyInt _ | PyFloat _ => Raise TypeError
  end.

(** [hasattr(x, "rx2")] and [x.rx2(name)] *)
Definition rx2_of (x : pyval) : option (string -> result exn pyval) :=
  match x with
  | PyObj o => ob_rx2 o
  | _ => None
  end.

(** [getattr(x, "names", None)] *)
Definition getattr_names (x : pyval) : pyval :=
  match x with
  | PyObj o => match ob_names o with Some v => v | None => PyNone end
  | _ => PyNone
  end.

Definition is_None (x : pyval) : bool :=
  match x with
  | PyNone => true
  | _ => false
  end.

(** [callable(getattr(x, "__iter__", None))] *)
Definition has_iter (x : pyval) : bool :=
  match x with
  | PyStr _ | PyList _ | PyDict _ => true
  | PyObj o => ob_has_iter o
  | PyNone | PyBool _ | PyInt _ | PyFloat _ => false
  end.

(** Iterating [x]: the items it yields, then either exhaustion or the
    exception that ends the iteration ([TypeError] at once when [x] is not
    iterable). *)
Definition iterate (x : pyval) : list pyval * option exn :=
  match x with
  | PyStr s => (chars s, None)
  | PyList l => (l, None)
  | PyDict d => (PyStr <$> dict_keys [] d, None)
  | PyObj o => ob_iterate o
  | PyNone | PyBool _ | PyInt _ | PyFloat _ => ([], Some TypeError)
  end.

(** [list(x)] *)
Definition py_list (x : pyval) : result exn (list pyval) :=
  match iterate x with
  | (items, None) => Ok items
  | (_, Some e) => Raise e
  end.

(** [isinstance(x, pd.DataFrame)] *)
Definition isinstance_DataFrame (x : pyval) : bool :=
  match x with
  | PyObj o => match ob_table o with NativeTable _ => true | _ => false end
  | _ => false
  end.

(** [name in ("min_year", "max_year")]: the key that [name] equals. *)
Definition year_key (name : pyval) : option string :=
  match name with
  | PyStr s =>
      if String.eqb s "min_year" || String.eqb s "max_year" then Some s else None
  | _ => None
  end.

(** ** Normalizing the year range (the body of [get_available_years]) *)

(** The dict literal [{"min_year": lo, "max_year": hi}]. *)
Definition year_range (lo hi : Z) : gmap string Z :=
  <["max_year" := hi]> (<["min_year" := lo]> ∅).

(** [for i, name in enumerate(names): if name in (...): result[name] =
    int(r_result[i])], started at position [i] with the dict [res]. *)
Fixpoint scan_names (r_result : pyval) (i : Z) (names : list pyval)
    (res : gmap string Z) : result exn (gmap string Z) :=
  match names with
  | [] => Ok res
  | name :: rest =>
      match year_key name with
      | Some key =>
          x ← py_getitem r_result i;
          n ← py_int x;
          scan_names r_result (i + 1) rest (<[key := n]> res)
      | None => scan_names r_result (i + 1) rest res
      end
  end.

(** The fallback on the [names] attribute. [names] is [list(names_attr)]
    when [names_attr] has a callable [__iter__], and [names_attr] itself
    otherwise; in the second case the loop draws the names one at a time, so
    an exception of the iteration comes after the positions before it. *)
Definition from_names (r_result names_attr : pyval) : result exn (gmap string Z) :=
  if has_iter names_attr then
    names ← py_list names_attr;
    scan_names r_result 0 names ∅
  else
    let '(names, stop) := iterate names_attr in
    res ← scan_names r_result 0 names ∅;
    match stop with
    | None => Ok res
    | Some e => Raise e
    end.

(** Lines 128 to 148 of core.py, applied to the value [r_result] that
    [pkg.get_available_years()] returned. *)
Definition normalize_year_range (r_result : pyval) : result error (gmap string Z) :=
  match r_result with
  | PyDict d =>
      propagate (
        lo ← dict_getitem d "min_year" ≫= py_int;
        hi ← dict_getitem d "max_year" ≫= py_int;
        mret (year_range lo hi))
  | _ =>
      match rx2_of r_result with
      | Some rx2 =>
          propagate (
            lo ← (v ← rx2 "min_year"; x ← py_getitem v 0; py_int x);
            hi ← (v ← rx2 "max_year"; x ← py_getitem v 0; py_int x);
            mret (year_range lo hi))
      | None =>
          let names_attr := getattr_names r_result in
          if negb (is_None names_attr)
          then propagate (from_names r_result names_attr)
          else Raise (UnexpectedReturnType (py_type r_result))
      end
  end.

(** ** The R package, the bridge and the state of the module *)

(** The functions of the R package as Python sees them through the bridge
    inside [localconverter(default_converter + pandas2ri.converter)]. Each
    takes the number of interactions with R so far, so that the data source
    may change over time; [pkg_id] tells two loaded instances apart. *)
Record package : Type := {
  pkg_id : nat;
  pkg_fetch_enr : nat -> pyval -> result exn pyval;
  pkg_fetch_enr_multi : nat -> pyval -> result exn pyval;
  pkg_tidy_enr : nat -> pyval -> result exn pyval;
  pkg_get_available_years : nat -> result exn pyval
}.

(** rpy2: [importr] (whose outcome may also change over time),
    [robjects.IntVector], [pandas2ri.py2rpy] and [pandas2ri.rpy2py]. *)
Record rpy2 : Type := {
  importr : nat -> string -> result exn package;
  IntVector : list Z -> result exn pyval;
  py2rpy : pyval -> result exn pyval;
  rpy2py : pyval -> result exn pyval
}.

Inductive rfun : Type :=
| Rfetch_enr | Rfetch_enr_multi | Rtidy_enr | Rget_available_years.

(** What crossed the bridge: an [importr] and whether it loaded the package,
    or a call of a function of the package. *)
Inductive event : Type :=
| Import (name : string) (loaded : bool)
| Call (f : rfun).

(** The global [_pkg] ([None] until the package is loaded) and the
    interactions with R so far, oldest first. *)
Record state : Type := {
  _pkg : option package;
  trace : list event
}.

Definition init : state := {| _pkg := None; trace := [] |}.

Definition now (s : state) : nat := List.length (trace s).

Definition is_ok {E A} (r : result E A) : bool :=
  match r with
  | Ok _ => true
  | Raise _ => false
  end.

(** Computations of the wrapper: they read and write the state and may
    raise. *)
Definition M (A : Type) : Type := state -> result error A * state.

#[global] Instance M_ret : MRet M := fun _ a s => (Ok a, s).
#[global] Instance M_bind : MBind M := fun _ _ f m s =>
  match m s with
  | (Ok a, s') => f a s'
  | (Raise e, s') => (Raise e, s')
  end.

#[global] Instance M_fmap : FMap M := fun _ _ f m s =>
  match m s with
  | (Ok a, s') => (Ok (f a), s')
  | (Raise e, s') => (Raise e, s')
  end.

(** A computation of a callee that does not cross into R. *)
Definition lift {A} (r : result exn A) : M A := fun s => (propagate r, s).

(** The end of a computation: return the value or raise the error. *)
Definition finish {A} (r : result error A) : M A := fun s => (r, s).

(** An interaction with R: its outcome at the present time, recorded in the
    trace. *)
Definition interact {A} (ev : result exn A -> event) (f : nat -> result exn A) : M A :=
  fun s =>
    let r := f (now s) in
    (propagate r, {| _pkg := _pkg s; trace := trace s ++ [ev r] |}).

Definition read_pkg : M (option package) := fun s => (Ok (_pkg s), s).

Definition write_pkg (p : package) : M unit :=
  fun s => (Ok tt, {| _pkg := Some p; trace := trace s |}).

Section Wrapper.

Context (R : rpy2).

Definition call_importr (name : string) : M package :=
  interact (fun r => Import name (is_ok r)) (fun t => importr R t name).

Definition call (f : rfun) (body : nat -> result exn pyval) : M pyval :=
  interact (fun _ => Call f) body.

(** ** The operations of core.py *)

Definition _get_pkg : M package :=
  cached ← read_pkg;
  match cached with
  | None =>
      p ← call_importr "meschooldata";
      write_pkg p;;
      mret p
  | Some p => mret p
  end.

Definition fetch_enr (end_year : Z) : M pyval :=
  pkg ← _get_pkg;
  r_df ← call Rfetch_enr (fun t => pkg_fetch_enr pkg t (PyInt end_year));
  if isinstance_DataFrame r_df then mret r_df
  else lift (rpy2py R r_df).

Definition fetch_enr_multi (end_years : list Z) : M pyval :=
  pkg ← _get_pkg;
  r_years ← lift (IntVector R end_years);
  r_df ← call Rfetch_enr_multi (fun t => pkg_fetch_enr_multi pkg t r_years);
  if isinstance_DataFrame r_df then mret r_df
  else lift (rpy2py R r_df).

Definition tidy_enr (df : pyval) : M pyval :=
  pkg ← _get_pkg;
  r_df ← lift (py2rpy R df);
  r_result ← call Rtidy_enr (fun t => pkg_tidy_enr pkg t r_df);
  if isinstance_DataFrame r_result then mret r_result
  else lift (rpy2py R r_result).

Definition get_available_years : M (gmap string Z) :=
  pkg ← _get_pkg;
  r_result ← call Rget_available_years (pkg_get_available_years pkg);
  finish (normalize_year_range r_result).

End Wrapper.

(** ** Sequences of calls *)

(** A call of the public interface, and what it returned. *)
Inductive op : Type :=
| GetPkg
| FetchEnr (end_year : Z)
| FetchEnrMulti (end_years : list Z)
| TidyEnr (df : pyval)
| GetAvailableYears.

Inductive retval : Type :=
| Handle (p : package)
| Table (v : pyval)
| Years (d : gmap string Z).

Definition run (R : rpy2) (o : op) : M retval :=
  match o with
  | GetPkg => Handle <$> _get_pkg R
  | FetchEnr end_year => Table <$> fetch_enr R end_year
  | FetchEnrMulti end_years => Table <$> fetch_enr_multi R end_years
  | TidyEnr df => Table <$> tidy_enr R df
  | GetAvailableYears => Years <$> get_available_years R
  end.

(** The state after one call, and after a sequence of calls, whether they
    returned or raised. *)
Definition exec (R : rpy2) (s : state) (o : op) : state := (run R o s).2.

Definition exec_all (R : rpy2) (s : state) (ops : list op) : state :=
  foldl (exec R) s ops.

Definition is_load (ev : event) : bool :=
  match ev with
  | Import _ loaded => loaded
  | Call _ => false
  end.

Definition is_import (ev : event) : bool :=
  match ev with
  | Import _ _ => true
  | Call _ => false
  end.

(** How often [importr] was called, and how often it loaded the package. *)
Definition imports (s : state) : nat := List.length (List.filter is_import (trace s)).
Definition loads (s : state) : nat := List.length (List.filter is_load (trace s)).

(** ** Sample values and a sample installation *)

(** An object that exposes only a [names] attribute, parallel to its
    positional values. *)
Definition names_only (names : list string) (values : list pyval) : pyval :=
  PyObj {|
    ob_class := "NamedList";
    ob_table := NotTable;
    ob_rx2 := None;
    ob_names := Some (PyList (PyStr <$> names));
    ob_getitem := py_getitem (PyList values);
    ob_int := Raise TypeError;
    ob_has_iter := true;
    ob_iterate := (values, None)
  |}.

(** The first field of an R list that carries the name. *)
Fixpoint first_field (fields : list (string * pyval)) (name : string) : option pyval :=
  match fields with
  | [] => None
  | (k, v) :: rest => if String.eqb k name then Some v else first_field rest name
  end.

(** An object in the manner of rpy2's [ListVector]: [rx2] by name gives the
    vector of that field, here of length one; it also has [names]. *)
Definition list_vector (fields : list (string * pyval)) : pyval :=
  PyObj {|
    ob_class := "ListVector";
    ob_table := NotTable;
    ob_rx2 := Some (fun name =>
      match first_field fields name with
      | Some v => Ok (PyList [v])
      | None => Ok PyNone
      end);
    ob_names := Some (PyList (PyStr <$> fields.*1));
    ob_getitem := py_getitem (PyList ((fun f => PyList [f.2]) <$> fields));
    ob_int := Raise TypeError;
    ob_has_iter := true;
    ob_iterate := ((fun f => PyList [f.2]) <$> fields, None)
  |}.

(** A [pandas.DataFrame] and an R data frame holding the table [t]. *)
Definition pandas_frame (t : table) : pyval :=
  PyObj {|
    ob_class := "DataFrame";
    ob_table := NativeTable t;
    ob_rx2 := None;
    ob_names := None;
    ob_getitem := fun i => Raise (KeyError (pretty i));
    ob_int := Raise TypeError;
    ob_has_iter := true;
    ob_iterate := (PyStr <$> t.*1, None)
  |}.

Definition r_frame (t : table) : pyval :=
  PyObj {|
    ob_class := "data.frame";
    ob_table := ForeignTable t;
    ob_rx2 := Some (fun name => Raise (RRuntimeError "subscript out of bounds"));
    ob_names := Some (PyList (PyStr <$> t.*1));
    ob_getitem := fun i => Raise IndexError;
    ob_int := Raise TypeError;
    ob_has_iter := true;
    ob_iterate := ([], None)
  |}.

Definition table_of (x : pyval) : option table :=
  match x with
  | PyObj o =>
      match ob_table o with
      | NativeTable t | ForeignTable t => Some t
      | NotTable => None
      end
  | _ => None
  end.

(** The enrollment of a year in the sample data source. *)
Definition sample_rows (years : list Z) : table :=
  [("end_year", IntCell <$> years);
   ("district_name", (fun _ => StrCell "Portland") <$> years);
   ("row_total", (fun y => IntCell (6500 + (y - 2015))) <$> years)].

Definition years_of (x : pyval) : option (list Z) :=
  match x with
  | PyInt y => Some [y]
  | PyList l => mapM (fun v => match v with PyInt y => Some y | _ => None end) l
  | _ => None
  end.

(** A sample package: it serves the years 2015 to 2025, leaves its tables
    in R's representation, and reports the range as [years]. *)
Definition sample_fetch (x : pyval) : result exn pyval :=
  match years_of x with
  | Some ys =>
      if forallb (fun y => (2015 <=? y) && (y <=? 2025)) ys
      then Ok (r_frame (sample_rows ys))
      else Raise (RRuntimeError "end_year must be between 2015 and 2025")
  | None => Raise (RRuntimeError "invalid end_year")
  end.

Definition sample_pkg (years : pyval) : package := {|
  pkg_id := 1;
  pkg_fetch_enr := fun _ => sample_fetch;
  pkg_fetch_enr_multi := fun _ => sample_fetch;
  pkg_tidy_enr := fun _ x =>
    match table_of x with
    | Some t => Ok (r_frame t)
    | None => Raise (RRuntimeError "not a data frame")
    end;
  pkg_get_available_years := fun _ => Ok years
|}.

(** A sample bridge: the package is found from time [ready] on; the
    converters turn one kind of frame into the other. *)
Definition sample_rpy2 (ready : nat) (years : pyval) : rpy2 := {|
  importr := fun t name =>
    if bool_decide (ready ≤ t)%nat && String.eqb name "meschooldata"
    then Ok (sample_pkg years)
    else Raise (PackageNotInstalledError name);
  IntVector := fun l => Ok (PyList (PyInt <$> l));
  py2rpy := fun x =>
    match table_of x with
    | Some t => Ok (r_frame t)
    | None => Ok x
    end;
  rpy2py := fun x =>
    match table_of x with
    | Some t => Ok (pandas_frame t)
    | None => Ok x
    end
|}.

Definition mapping_2015_2025 : pyval :=
  PyDict [("min_year", PyInt 2015); ("max_year", PyInt 2025)].

Definition other_names : pyval :=
  names_only ["first_year"; "last_year"] [PyInt 2015; PyInt 2025].


(** ** The normalization policy in the words of the specification *)

(** The three known shapes of the value that the range query returns, and
    the case that none of them matches. *)
Inductive shape : Type :=
| NativeMapping
| NameIndexed
| ParallelNames
| Unrecognized.

Definition is_mapping (r : pyval) : bool :=
  match r with
  | PyDict _ => true
  | _ => false
  end.

Definition has_rx2 (r : pyval) : bool :=
  match rx2_of r with
  | Some _ => true
  | None => false
  end.

Definition has_names (r : pyval) : bool := negb (is_None (getattr_names r)).

Definition applies (sh : shape) (r : pyval) : bool :=
  match sh with
  | NativeMapping => is_mapping r
  | NameIndexed => has_rx2 r
  | ParallelNames => has_names r
  | Unrecognized => true
  end.

(** "For each position whose name equals min_year or max_year, record the
    coerced integer value at that position": one step of the scan, on the
    position [pos.1] with the name [pos.2]. *)
Definition record_position (r : pyval) (acc : result exn (gmap string Z))
    (pos : nat * pyval) : result exn (gmap string Z) :=
  res ← acc;
  match year_key pos.2 with
  | Some key =>
      n ← py_getitem r (Z.of_nat pos.1) ≫= py_int;
      mret (<[key := n]> res)
  | None => mret res
  end.

Definition scan_positions (r : pyval) (names : list pyval) : result exn (gmap string Z) :=
  foldl (record_position r) (Ok ∅) (zip (seq 0 (List.length names)) names).

(** "Take the first element, coerce to integer". *)
Definition first_int (v : pyval) : result exn Z := py_getitem v 0 ≫= py_int.

(** What each entry of the policy does with the value. *)
Definition decode (sh : shape) (r : pyval) : result error (gmap string Z) :=
  match sh with
  | NativeMapping =>
      match r with
      | PyDict d =>
          propagate (
            lo ← dict_getitem d "min_year" ≫= py_int;
            hi ← dict_getitem d "max_year" ≫= py_int;
            mret (year_range lo hi))
      | _ => Raise (Propagated TypeError)
      end
  | NameIndexed =>
      match rx2_of r with
      | Some extract =>
          propagate (
            lo ← extract "min_year" ≫= first_int;
            hi ← extract "max_year" ≫= first_int;
            mret (year_range lo hi))
      | None => Raise (Propagated TypeError)
      end
  | ParallelNames =>
      propagate (py_list (getattr_names r) ≫= scan_positions r)
  | Unrecognized => Raise (UnexpectedReturnType (py_type r))
  end.

(** "Normalization policy, tried in order": the first entry that applies
    decides. *)
Definition policy : list shape :=
  [NativeMapping; NameIndexed; ParallelNames; Unrecognized].

Definition shape_of (r : pyval) : shape :=
  default Unrecognized (List.find (fun sh => applies sh r) policy).

Definition normalize_by_policy (r : pyval) : result error (gmap string Z) :=
  decode (shape_of r) r.

(** The names can be scanned as a whole: they are read before the scan
    starts (the attribute has a callable [__iter__], so the source applies
    [list] to it), or reading them ends without an exception, or yields
    nothing at all. *)
Definition names_read_whole (names_attr : pyval) : Prop :=
  has_iter names_attr = true ∨
  (iterate names_attr).2 = None ∨
  (iterate names_attr).1 = [].


Definition year_keys : gset string := {["min_year"; "max_year"]}.

(** The state after the call of [f] that follows [s]. *)
Definition called (f : rfun) (s : state) : state :=
  {| _pkg := _pkg s; trace := trace s ++ [Call f] |}.

(** Whether [x] is a table in R's representation. *)
Definition foreign_frame (x : pyval) : bool :=
  match x with
  | PyObj o => match ob_table o with ForeignTable _ => true | _ => false end
  | _ => false
  end.

Definition table_op (o : op) : bool :=
  match o with
  | FetchEnr _ | FetchEnrMulti _ | TidyEnr _ => true
  | GetPkg | GetAvailableYears => false
  end.

(** What a table operation makes of the outcome [r] of its call into R:
    the [isinstance] test and the conversion that follow the call. *)
Definition returned_table (R : rpy2) (r : result exn pyval) : result error pyval :=
  match r with
  | Ok v => if isinstance_DataFrame v then Ok v else propagate (rpy2py R v)
  | Raise e => Raise (Propagated e)
  end.

(** The cache and the count of loads agree. *)
Definition cache_counts (s : state) : Prop :=
  match _pkg s with
  | Some _ => loads s = 1%nat
  | None => loads s = 0%nat
  end.

(** ** Further bookkeeping and samples *)

#[global] Instance result_fmap {E} : FMap (result E) := fun _ _ f m =>
  match m with
  | Ok a => Ok (f a)
  | Raise e => Raise e
  end.

Definition is_call (ev : event) : bool :=
  match ev with
  | Call _ => true
  | Import _ _ => false
  end.

(** How often a function of the package was called. *)
Definition calls (s : state) : nat := List.length (List.filter is_call (trace s)).

(** An [importr] in the trace asked for [meschooldata]. *)
Definition asks_meschooldata (ev : event) : Prop :=
  match ev with
  | Import name _ => name = "meschooldata"
  | Call _ => True
  end.

(** The functions of [p] answer the same at all times. *)
Definition stable (p : package) : Prop :=
  ∀ t t' : nat,
    (∀ x, pkg_fetch_enr p t x = pkg_fetch_enr p t' x) ∧
    (∀ x, pkg_fetch_enr_multi p t x = pkg_fetch_enr_multi p t' x) ∧
    (∀ x, pkg_tidy_enr p t x = pkg_tidy_enr p t' x) ∧
    pkg_get_available_years p t = pkg_get_available_years p t'.

(** What the operation [o] returns or raises when it has the handle [p]
    and reaches R at time [t]. *)
Definition outcome (R : rpy2) (p : package) (t : nat) (o : op) : result error retval :=
  match o with
  | GetPkg => Ok (Handle p)
  | FetchEnr end_year =>
      Table <$> returned_table R (pkg_fetch_enr p t (PyInt end_year))
  | FetchEnrMulti end_years =>
      r_years ← propagate (IntVector R end_years);
      Table <$> returned_table R (pkg_fetch_enr_multi p t r_years)
  | TidyEnr df =>
      r_df ← propagate (py2rpy R df);
      Table <$> returned_table R (pkg_tidy_enr p t r_df)
  | GetAvailableYears =>
      r ← propagate (pkg_get_available_years p t);
      Years <$> normalize_year_range r
  end.

(** A package that hands out tables which the bridge has converted
    already. *)
Definition converted_pkg : package := {|
  pkg_id := 2;
  pkg_fetch_enr := fun _ x =>
    match years_of x with
    | Some ys => Ok (pandas_frame (sample_rows ys))
    | None => Raise (RRuntimeError "invalid end_year")
    end;
  pkg_fetch_enr_multi := fun _ x =>
    match years_of x with
    | Some ys => Ok (pandas_frame (sample_rows ys))
    | None => Raise (RRuntimeError "invalid end_year")
    end;
  pkg_tidy_enr := fun _ x =>
    match table_of x with
    | Some t => Ok (pandas_frame t)
    | None => Raise (RRuntimeError "not a data frame")
    end;
  pkg_get_available_years := fun _ => Ok PyNone
|}.

(** A bridge that always finds [p] and whose converters refuse what they
    cannot convert: [IntVector] takes 32-bit integers, [py2rpy] takes
    pandas frames, [rpy2py] takes R data frames. *)
Definition strict_rpy2 (p : package) : rpy2 := {|
  importr := fun _ name =>
    if String.eqb name "meschooldata" then Ok p
    else Raise (PackageNotInstalledError name);
  IntVector := fun l =>
    if forallb (fun y => (- 2 ^ 31 <=? y) && (y <? 2 ^ 31)) l
    then Ok (PyList (PyInt <$> l))
    else Raise OverflowError;
  py2rpy := fun x =>
    if isinstance_DataFrame x
    then match table_of x with Some t => Ok (r_frame t) | None => Raise TypeError end
    else Raise TypeError;
  rpy2py := fun x =>
    if foreign_frame x
    then match table_of x with Some t => Ok (pandas_frame t) | None => Raise TypeError end
    else Raise TypeError
|}.

(** An object whose [names] attribute is the given value and which has the
    given positional values. *)
Definition with_names (names_attr : pyval) (values : list pyval) : pyval :=
  PyObj {|
    ob_class := "Vector";
    ob_table := NotTable;
    ob_rx2 := None;
    ob_names := Some names_attr;
    ob_getitem := py_getitem (PyList values);
    ob_int := Raise TypeError;
    ob_has_iter := true;
    ob_iterate := (values, None)
  |}.

(** In state [s], [get_available_years] gets the handle and the package
    returns [r]. *)
Definition years_returned (R : rpy2) (s : state) (r : pyval) : Prop :=
  ∃ p s1, _get_pkg R s = (Ok p, s1) ∧ pkg_get_available_years p (now s1) = Ok r.

(** [r] is read through its [names] attribute, whose iteration yields
    [names] and ends without an exception. *)
Definition read_by_names (r : pyval) (names : list pyval) : Prop :=
  is_mapping r = false ∧
  has_rx2 r = false ∧
  is_None (getattr_names r) = false ∧
  iterate (getattr_names r) = (names, None).

(** A package whose functions all return R's [NULL], which the bridge
    hands over as [None]. *)
Definition null_pkg : package := {|
  pkg_id := 3;
  pkg_fetch_enr := fun _ _ => Ok PyNone;
  pkg_fetch_enr_multi := fun _ _ => Ok PyNone;
  pkg_tidy_enr := fun _ _ => Ok PyNone;
  pkg_get_available_years := fun _ => Ok PyNone
|}.


(** ** The package handle *)

Section Handle.

Context (R : rpy2).

Lemma _get_pkg_cached (s : state) (p : package) :
  _pkg s = Some p → _get_pkg R s = (Ok p, s).
Proof.
  intros Hs. unfold _get_pkg, mbind, M_bind, read_pkg. by rewrite Hs.
Qed.

Lemma _get_pkg_loaded (s : state) (p : package) :
  _pkg s = None →
  importr R (now s) "meschooldata" = Ok p →
  _get_pkg R s =
    (Ok p, {| _pkg := Some p; trace := trace s ++ [Import "meschooldata" true] |}).
Proof.
  intros Hs Hp.
  unfold _get_pkg, mbind, M_bind, read_pkg, call_importr, interact, write_pkg.
  rewrite Hs. cbn. by rewrite Hp.
Qed.

Lemma _get_pkg_failed (s : state) (e : exn) :
  _pkg s = None →
  importr R (now s) "meschooldata" = Raise e →
  _get_pkg R s =
    (Raise (Propagated e),
     {| _pkg := None; trace := trace s ++ [Import "meschooldata" false] |}).
Proof.
  intros Hs He.
  unfold _get_pkg, mbind, M_bind, read_pkg, call_importr, interact, write_pkg.
  rewrite Hs. cbn. rewrite He. cbn. by rewrite Hs.
Qed.

(** A handle that [_get_pkg] returns is the one in the cache afterwards. *)
Lemma _get_pkg_returns (s s' : state) (p : package) :
  _get_pkg R s = (Ok p, s') → _pkg s' = Some p.
Proof.
  destruct (_pkg s) as [q|] eqn:Hs.
  - rewrite (_get_pkg_cached s q Hs). intros [= <- <-]. done.
  - destruct (importr R (now s) "meschooldata") as [q|e] eqn:Hq.
    + rewrite (_get_pkg_loaded s q Hs Hq). by intros [= <- <-].
    + rewrite (_get_pkg_failed s e Hs Hq). discriminate.
Qed.

End Handle.

(** ** The operations, once the handle is known *)

Section Operations.

Context (R : rpy2).

Ltac run_with H :=
  unfold fetch_enr, fetch_enr_multi, tidy_enr, get_available_years,
    mbind, M_bind, fmap, M_fmap;
  rewrite H; cbn.

Lemma fetch_enr_run (s s1 : state) (p : package) (end_year : Z) :
  _get_pkg R s = (Ok p, s1) →
  fetch_enr R end_year s =
    (returned_table R (pkg_fetch_enr p (now s1) (PyInt end_year)),
     called Rfetch_enr s1).
Proof.
  intros H. run_with H.
  destruct (pkg_fetch_enr p (now s1) (PyInt end_year)) as [v|e]; cbn; [|done].
  destruct (isinstance_DataFrame v); done.
Qed.

Lemma fetch_enr_multi_run (s s1 : state) (p : package) (end_years : list Z) (r_years : pyval) :
  _get_pkg R s = (Ok p, s1) →
  IntVector R end_years = Ok r_years →
  fetch_enr_multi R end_years s =
    (returned_table R (pkg_fetch_enr_multi p (now s1) r_years),
     called Rfetch_enr_multi s1).
Proof.
  intros H Hv. run_with H. unfold lift. rewrite Hv. cbn.
  destruct (pkg_fetch_enr_multi p (now s1) r_years) as [v|e]; cbn; [|done].
  destruct (isinstance_DataFrame v); done.
Qed.

Lemma fetch_enr_multi_unwrapped (s s1 : state) (p : package) (end_years : list Z) (e : exn) :
  _get_pkg R s = (Ok p, s1) →
  IntVector R end_years = Raise e →
  fetch_enr_multi R end_years s = (Raise (Propagated e), s1).
Proof.
  intros H Hv. run_with H. unfold lift. by rewrite Hv.
Qed.

Lemma tidy_enr_run (s s1 : state) (p : package) (df r_df : pyval) :
  _get_pkg R s = (Ok p, s1) →
  py2rpy R df = Ok r_df →
  tidy_enr R df s =
    (returned_table R (pkg_tidy_enr p (now s1) r_df), called Rtidy_enr s1).
Proof.
  intros H Hv. run_with H. unfold lift. rewrite Hv. cbn.
  destruct (pkg_tidy_enr p (now s1) r_df) as [v|e]; cbn; [|done].
  destruct (isinstance_DataFrame v); done.
Qed.

Lemma tidy_enr_unwrapped (s s1 : state) (p : package) (df : pyval) (e : exn) :
  _get_pkg R s = (Ok p, s1) →
  py2rpy R df = Raise e →
  tidy_enr R df s = (Raise (Propagated e), s1).
Proof.
  intros H Hv. run_with H. unfold lift. by rewrite Hv.
Qed.

Lemma get_available_years_run (s s1 : state) (p : package) :
  _get_pkg R s = (Ok p, s1) →
  get_available_years R s =
    (propagate (pkg_get_available_years p (now s1)) ≫= normalize_year_range,
     called Rget_available_years s1).
Proof.
  intros H. run_with H.
  destruct (pkg_get_available_years p (now s1)) as [v|e]; done.
Qed.

(** Without a handle, no operation goes further than [_get_pkg]. *)
Lemma run_without_handle (s s1 : state) (e : error) (o : op) :
  _get_pkg R s = (Raise e, s1) → run R o s = (Raise e, s1).
Proof.
  intros H. destruct o; cbn; run_with H; done.
Qed.

(** The state after an operation is the state after its [_get_pkg], with at
    most one call of the package added. *)
Lemma exec_after_get_pkg (s : state) (o : op) :
  let s1 := (_get_pkg R s).2 in
  exec R s o = s1 ∨ ∃ f, exec R s o = called f s1.
Proof.
  unfold exec. destruct (_get_pkg R s) as [[p|e] s1] eqn:H; cbn.
  2: { left. by rewrite (run_without_handle s s1 e o H). }
  destruct o as [|y|ys|df|]; cbn; unfold fmap, M_fmap.
  - left. by rewrite H.
  - right. exists Rfetch_enr. rewrite (fetch_enr_run s s1 p y H).
    by destruct (returned_table _ _).
  - destruct (IntVector R ys) as [v|e] eqn:Hv.
    + right. exists Rfetch_enr_multi. rewrite (fetch_enr_multi_run s s1 p ys v H Hv).
      by destruct (returned_table _ _).
    + left. by rewrite (fetch_enr_multi_unwrapped s s1 p ys e H Hv).
  - destruct (py2rpy R df) as [v|e] eqn:Hv.
    + right. exists Rtidy_enr. rewrite (tidy_enr_run s s1 p df v H Hv).
      by destruct (returned_table _ _).
    + left. by rewrite (tidy_enr_unwrapped s s1 p df e H Hv).
  - right. exists Rget_available_years. rewrite (get_available_years_run s s1 p H).
    by destruct (_ ≫= _).
Qed.

End Operations.

(** ** The cache over sequences of calls *)

Section Singleton.

Context (R : rpy2).

Lemma loads_app (s : state) (evs : list event) (c : option package) :
  loads {| _pkg := c; trace := trace s ++ evs |} =
    (loads s + List.length (List.filter is_load evs))%nat.
Proof. unfold loads; cbn. by rewrite List.filter_app, List.length_app. Qed.

Lemma imports_app (s : state) (evs : list event) (c : option package) :
  imports {| _pkg := c; trace := trace s ++ evs |} =
    (imports s + List.length (List.filter is_import evs))%nat.
Proof. unfold imports; cbn. by rewrite List.filter_app, List.length_app. Qed.

Lemma cache_counts_called (f : rfun) (s : state) :
  cache_counts s → cache_counts (called f s).
Proof.
  unfold cache_counts, called. rewrite loads_app. cbn.
  destruct (_pkg s); lia.
Qed.

Lemma cache_counts_get_pkg (s : state) :
  cache_counts s → cache_counts (_get_pkg R s).2.
Proof.
  intros Hs. destruct (_pkg s) as [q|] eqn:Hc.
  - by rewrite (_get_pkg_cached R s q Hc).
  - unfold cache_counts in Hs. rewrite Hc in Hs.
    destruct (importr R (now s) "meschooldata") as [q|e] eqn:Hq.
    + rewrite (_get_pkg_loaded R s q Hc Hq). cbn [snd]. unfold cache_counts.
      rewrite loads_app. cbn. lia.
    + rewrite (_get_pkg_failed R s e Hc Hq). cbn [snd]. unfold cache_counts.
      rewrite loads_app. cbn. lia.
Qed.

Lemma cache_counts_exec (s : state) (o : op) :
  cache_counts s → cache_counts (exec R s o).
Proof.
  intros Hs. apply cache_counts_get_pkg in Hs.
  destruct (exec_after_get_pkg R s o) as [-> | [f ->]]; [done|].
  by apply cache_counts_called.
Qed.

Lemma cache_counts_exec_all (ops : list op) (s : state) :
  cache_counts s → cache_counts (exec_all R s ops).
Proof.
  revert s. induction ops as [|o ops IH]; intros s Hs; [done|].
  change (exec_all R s (o :: ops)) with (exec_all R (exec R s o) ops).
  apply IH. by apply cache_counts_exec.
Qed.

(** Along every sequence of calls from the start, the package is loaded
    at most once. *)
Lemma loads_at_most_once (ops : list op) :
  (loads (exec_all R init ops) ≤ 1)%nat.
Proof.
  pose proof (cache_counts_exec_all ops init eq_refl) as H.
  unfold cache_counts in H. destruct (_pkg _); lia.
Qed.

(** Once the cache holds a handle, an operation keeps it and does not call
    [importr]. *)
Lemma exec_keeps_handle (s : state) (p : package) (o : op) :
  _pkg s = Some p →
  _pkg (exec R s o) = Some p ∧ imports (exec R s o) = imports s.
Proof.
  intros Hc. pose proof (exec_after_get_pkg R s o) as H.
  rewrite (_get_pkg_cached R s p Hc) in H. cbn in H.
  destruct H as [-> | [f ->]]; [done|].
  split; [done|]. unfold called. rewrite imports_app. cbn. lia.
Qed.

Lemma exec_all_keeps_handle (ops : list op) (s : state) (p : package) :
  _pkg s = Some p →
  _pkg (exec_all R s ops) = Some p ∧ imports (exec_all R s ops) = imports s.
Proof.
  revert s. induction ops as [|o ops IH]; intros s Hc; [done|].
  change (exec_all R s (o :: ops)) with (exec_all R (exec R s o) ops).
  destruct (exec_keeps_handle s p o Hc) as [Hc' Hi].
  destruct (IH _ Hc') as [H1 H2]. split; [exact H1|].
  rewrite H2. exact Hi.
Qed.

(** C3. [_get_pkg] is an idempotent lazy singleton. Take any sequence of
    calls of the module from its initial state, and a call of [_get_pkg]
    after it that returns a handle [p]. Then the package has been loaded
    exactly once so far (and at most once before the call); and after any
    further calls [_get_pkg] returns the same [p] from the cache, leaves the
    state as it is, and [importr] has not been called again. *)
Theorem get_pkg_lazy_singleton (ops : list op) (p : package) (s' : state) :
  _get_pkg R (exec_all R init ops) = (Ok p, s') →
  (loads (exec_all R init ops) ≤ 1)%nat ∧
  loads s' = 1%nat ∧
  ∀ ops' : list op,
    let s'' := exec_all R s' ops' in
    _get_pkg R s'' = (Ok p, s'') ∧ imports s'' = imports s' ∧ loads s'' = 1%nat.
Proof.
  intros Hget.
  pose proof (cache_counts_exec_all ops init eq_refl) as Hinv.
  pose proof (_get_pkg_returns R _ _ _ Hget) as Hc.
  assert (cache_counts s') as Hinv'.
  { apply cache_counts_get_pkg in Hinv. by rewrite Hget in Hinv. }
  split; [apply loads_at_most_once|].
  split; [unfold cache_counts in Hinv'; by rewrite Hc in Hinv'|].
  intros ops' s''. subst s''.
  destruct (exec_all_keeps_handle ops' s' p Hc) as [Hc'' Hi].
  split; [by apply _get_pkg_cached|]. split; [done|].
  pose proof (cache_counts_exec_all ops' s' Hinv') as H.
  unfold cache_counts in H. by rewrite Hc'' in H.
Qed.

(** C10. A failed load is not cached. If the cache is unset and [importr]
    fails with [e], then whichever operation [o] is called raises [e],
    leaves the cache unset, and has made that one attempt; and whichever
    operation [o'] is called next begins with a new call of [importr]. *)
Theorem load_failure_not_cached (s : state) (e : exn) (o : op) :
  _pkg s = None →
  importr R (now s) "meschooldata" = Raise e →
  let s' := exec R s o in
  (run R o s).1 = Raise (Propagated e) ∧
  _pkg s' = None ∧
  trace s' = (trace s ++ [Import "meschooldata" false])%list ∧
  ∀ o' : op, ∃ rest : list event,
    trace (exec R s' o') =
      (trace s' ++
       Import "meschooldata" (is_ok (importr R (now s') "meschooldata")) :: rest)%list.
Proof.
  intros Hc He s'. subst s'. unfold exec.
  rewrite (run_without_handle R s _ _ o (_get_pkg_failed R s e Hc He)).
  cbn [fst snd _pkg trace].
  repeat split. intros o'.
  set (s1 := {| _pkg := None; trace := trace s ++ [Import "meschooldata" false] |}).
  pose proof (exec_after_get_pkg R s1 o') as H. unfold exec in H.
  destruct (importr R (now s1) "meschooldata") as [q|e'] eqn:Hq.
  - rewrite (_get_pkg_loaded R s1 q eq_refl Hq) in H. cbn [snd] in H.
    destruct H as [-> | [f ->]]; unfold called; cbn [trace is_ok].
    + by exists [].
    + exists [Call f]. by rewrite <- app_assoc.
  - rewrite (_get_pkg_failed R s1 e' eq_refl Hq) in H. cbn [snd] in H.
    destruct H as [-> | [f ->]]; unfold called; cbn [trace is_ok].
    + by exists [].
    + exists [Call f]. by rewrite <- app_assoc.
Qed.

End Singleton.

(** ** Tables and errors across the bridge *)

Section Bridge.

Context (R : rpy2).

Lemma returned_table_ok (r : result exn pyval) (v : pyval) :
  returned_table R r = Ok v →
  ∃ r_df, r = Ok r_df ∧
    (isinstance_DataFrame r_df = true ∧ v = r_df ∨
     isinstance_DataFrame r_df = false ∧ rpy2py R r_df = Ok v).
Proof.
  destruct r as [r_df|e]; cbn; [|discriminate].
  destruct (isinstance_DataFrame r_df) eqn:Hdf.
  - intros [= <-]. eauto.
  - destruct (rpy2py R r_df) as [v'|e] eqn:Hv; cbn; [|discriminate].
    intros [= <-]. eauto.
Qed.

Lemma native_not_foreign (v : pyval) :
  isinstance_DataFrame v = true → foreign_frame v = false.
Proof.
  destruct v as [| | | | | | |o]; cbn; try done. by destruct (ob_table o).
Qed.

Lemma tabular_native_or_foreign (v : pyval) :
  is_Some (table_of v) → foreign_frame v = false → isinstance_DataFrame v = true.
Proof.
  destruct v as [| | | | | | |o]; cbn; try (by intros [? [=]]).
  destruct (ob_table o); first [done | by intros [? [=]]].
Qed.

(** What a table operation returns went through [returned_table]. *)
Lemma table_op_returns (o : op) (s : state) (v : retval) :
  table_op o = true →
  (run R o s).1 = Ok v →
  ∃ r v', v = Table v' ∧ returned_table R r = Ok v'.
Proof.
  intros Ho. destruct (_get_pkg R s) as [[p|e] s1] eqn:H.
  2: { rewrite (run_without_handle R s s1 e o H). discriminate. }
  destruct o as [|y|ys|df|]; try discriminate; cbn; unfold fmap, M_fmap.
  - rewrite (fetch_enr_run R s s1 p y H).
    destruct (returned_table _ _) as [v'|e] eqn:Hr; cbn; [|discriminate].
    intros [= <-]. eauto.
  - destruct (IntVector R ys) as [x|e] eqn:Hx.
    + rewrite (fetch_enr_multi_run R s s1 p ys x H Hx).
      destruct (returned_table _ _) as [v'|e] eqn:Hr; cbn; [|discriminate].
      intros [= <-]. eauto.
    + rewrite (fetch_enr_multi_unwrapped R s s1 p ys e H Hx). discriminate.
  - destruct (py2rpy R df) as [x|e] eqn:Hx.
    + rewrite (tidy_enr_run R s s1 p df x H Hx).
      destruct (returned_table _ _) as [v'|e] eqn:Hr; cbn; [|discriminate].
      intros [= <-]. eauto.
    + rewrite (tidy_enr_unwrapped R s s1 p df e H Hx). discriminate.
Qed.

(** C5. Given that [pandas2ri.rpy2py] never hands out an R data frame, no
    value that [fetch_enr], [fetch_enr_multi] or [tidy_enr] returns is a
    table in R's representation, whether or not the bridge had already
    converted the result of the call; so a returned value that is a table
    at all is a [pandas.DataFrame]. *)
Theorem returned_tables_are_native (o : op) (s : state) (v : pyval) :
  (∀ x x', rpy2py R x = Ok x' → foreign_frame x' = false) →
  table_op o = true →
  (run R o s).1 = Ok (Table v) →
  foreign_frame v = false ∧
  (is_Some (table_of v) → isinstance_DataFrame v = true).
Proof.
  intros Hconv Ho Hrun.
  destruct (table_op_returns o s _ Ho Hrun) as (r & v' & [= <-] & Hr).
  assert (foreign_frame v = false) as Hv.
  { destruct (returned_table_ok r v Hr) as (r_df & _ & [[Hdf ->] | [_ Hpy]]).
    - by apply native_not_foreign.
    - by apply (Hconv r_df). }
  split; [done|]. intros Ht. by apply tabular_native_or_foreign.
Qed.

(** C6. Suppose the handle can be had in state [s], [IntVector([Y])] is
    [r_years], and the single-year and the multi-year function of the
    package agree on that year at all times. Then [fetch_enr_multi([Y])]
    returns what [fetch_enr(Y)] returns, both when the two are called from
    the same state and when one is called after the other. *)
Theorem fetch_enr_multi_single_year (s s1 : state) (p : package) (Y : Z) (r_years : pyval) :
  _get_pkg R s = (Ok p, s1) →
  IntVector R [Y] = Ok r_years →
  (∀ t t' : nat, pkg_fetch_enr_multi p t' r_years = pkg_fetch_enr p t (PyInt Y)) →
  (fetch_enr_multi R [Y] s).1 = (fetch_enr R Y s).1 ∧
  (fetch_enr_multi R [Y] (fetch_enr R Y s).2).1 = (fetch_enr R Y s).1 ∧
  (fetch_enr R Y (fetch_enr_multi R [Y] s).2).1 = (fetch_enr_multi R [Y] s).1.
Proof.
  intros H Hv Hagree.
  pose proof (_get_pkg_returns R s s1 p H) as Hc.
  rewrite (fetch_enr_run R s s1 p Y H).
  rewrite (fetch_enr_multi_run R s s1 p [Y] r_years H Hv).
  cbn [fst snd].
  rewrite (fetch_enr_multi_run R (called Rfetch_enr s1) _ p [Y] r_years
             (_get_pkg_cached R (called Rfetch_enr s1) p Hc) Hv).
  rewrite (fetch_enr_run R (called Rfetch_enr_multi s1) _ p Y
             (_get_pkg_cached R (called Rfetch_enr_multi s1) p Hc)).
  cbn [fst].
  assert (∀ t, pkg_fetch_enr p t (PyInt Y) = pkg_fetch_enr p (now s1) (PyInt Y))
    as Hstable.
  { intros t. by rewrite <- (Hagree t 0%nat), <- (Hagree (now s1) 0%nat). }
  rewrite !Hagree with (t := now s1).
  by rewrite (Hstable (now (called Rfetch_enr_multi s1))).
Qed.

(** C8. Once the handle is there, an exception [e] raised by the function
    of the R package that an operation calls is what the operation raises,
    as it is; the trace shows that one call and nothing after it. *)
Theorem foreign_errors_propagate (s s1 : state) (p : package) (e : exn) :
  _get_pkg R s = (Ok p, s1) →
  (∀ end_year,
     pkg_fetch_enr p (now s1) (PyInt end_year) = Raise e →
     fetch_enr R end_year s = (Raise (Propagated e), called Rfetch_enr s1)) ∧
  (∀ end_years r_years,
     IntVector R end_years = Ok r_years →
     pkg_fetch_enr_multi p (now s1) r_years = Raise e →
     fetch_enr_multi R end_years s =
       (Raise (Propagated e), called Rfetch_enr_multi s1)) ∧
  (∀ df r_df,
     py2rpy R df = Ok r_df →
     pkg_tidy_enr p (now s1) r_df = Raise e →
     tidy_enr R df s = (Raise (Propagated e), called Rtidy_enr s1)) ∧
  (pkg_get_available_years p (now s1) = Raise e →
   get_available_years R s =
     (Raise (Propagated e), called Rget_available_years s1)).
Proof.
  intros H. repeat split.
  - intros y He. by rewrite (fetch_enr_run R s s1 p y H), He.
  - intros ys x Hx He. by rewrite (fetch_enr_multi_run R s s1 p ys x H Hx), He.
  - intros df x Hx He. by rewrite (tidy_enr_run R s s1 p df x H Hx), He.
  - intros He. by rewrite (get_available_years_run R s s1 p H), He.
Qed.

End Bridge.

(** ** Normalization of the year range *)

Lemma propagate_ok {A} (x : result exn A) (a : A) :
  propagate x = Ok a → x = Ok a.
Proof. destruct x; cbn; congruence. Qed.

Lemma propagate_raises {A} (x : result exn A) (e : error) :
  propagate x = Raise e → ∃ e', e = Propagated e' ∧ x = Raise e'.
Proof. destruct x; cbn; [discriminate|]. intros [= <-]. eauto. Qed.

Lemma bind_ok {E A B} (m : result E A) (f : A → result E B) (b : B) :
  m ≫= f = Ok b → ∃ a, m = Ok a ∧ f a = Ok b.
Proof. destruct m; cbn; [eauto|discriminate]. Qed.

Lemma year_range_min (lo hi : Z) : year_range lo hi !! "min_year" = Some lo.
Proof. unfold year_range. by rewrite lookup_insert_ne, lookup_insert_eq. Qed.

Lemma year_range_max (lo hi : Z) : year_range lo hi !! "max_year" = Some hi.
Proof. unfold year_range. by rewrite lookup_insert_eq. Qed.

Lemma year_range_dom (lo hi : Z) : dom (year_range lo hi) = year_keys.
Proof.
  unfold year_range, year_keys. rewrite !dom_insert_L, dom_empty_L. set_solver.
Qed.

Lemma year_key_in (name : pyval) (key : string) :
  year_key name = Some key → key ∈ year_keys.
Proof.
  destruct name as [| | | |s| | |]; cbn; try discriminate.
  destruct (String.eqb s "min_year") eqn:Hmin; cbn.
  - apply String.eqb_eq in Hmin as ->. intros [= <-]. unfold year_keys. set_solver.
  - destruct (String.eqb s "max_year") eqn:Hmax; [|discriminate].
    apply String.eqb_eq in Hmax as ->. intros [= <-]. unfold year_keys. set_solver.
Qed.

(** The loop only ever writes the two keys. *)
Lemma scan_names_dom (r : pyval) (names : list pyval) :
  ∀ (i : Z) (res d : gmap string Z),
    dom res ⊆ year_keys →
    scan_names r i names res = Ok d →
    dom d ⊆ year_keys.
Proof.
  induction names as [|name rest IH]; intros i res d Hres; cbn.
  - by intros [= <-].
  - destruct (year_key name) as [key|] eqn:Hkey; [|by apply IH].
    intros H. apply bind_ok in H as (x & _ & H).
    apply bind_ok in H as (n & _ & H).
    apply year_key_in in Hkey.
    apply (IH (i + 1) (<[key:=n]> res) d); [|exact H].
    rewrite dom_insert_L. apply union_subseteq.
    split; [by apply singleton_subseteq_l | done].
Qed.

(** Names that are neither key leave the dict as it was. *)
Lemma scan_names_no_key (r : pyval) (names : list pyval) :
  ∀ (i : Z) (res : gmap string Z),
    Forall (λ name, year_key name = None) names →
    scan_names r i names res = Ok res.
Proof.
  induction names as [|name rest IH]; intros i res Hall; cbn; [done|].
  inversion Hall as [|? ? Hname Hrest]; subst. rewrite Hname. by apply IH.
Qed.

Lemma foldl_record_raise (r : pyval) (e : exn) (l : list (nat * pyval)) :
  foldl (record_position r) (Raise e) l = Raise e.
Proof. induction l as [|pos l IH]; [done|]. cbn. exact IH. Qed.

(** The loop of the source is the scan over the positions. *)
Lemma scan_names_positions (r : pyval) (names : list pyval) :
  ∀ (k : nat) (res : gmap string Z),
    scan_names r (Z.of_nat k) names res =
      foldl (record_position r) (Ok res) (zip (seq k (List.length names)) names).
Proof.
  induction names as [|name rest IH]; intros k res; [done|].
  cbn [scan_names List.length seq zip zip_with foldl].
  unfold record_position at 2. cbn [mbind result_bind fst snd].
  destruct (year_key name) as [key|].
  - destruct (py_getitem r (Z.of_nat k)) as [x|e]; cbn;
      [|by rewrite foldl_record_raise].
    destruct (py_int x) as [n|e]; cbn; [|by rewrite foldl_record_raise].
    change (mret (<[key:=n]> res)) with (@Ok exn _ (<[key:=n]> res)).
    rewrite <- IH. f_equal. lia.
  - change (mret res) with (@Ok exn _ res).
    rewrite <- IH. f_equal. lia.
Qed.

Lemma from_names_positions (r names_attr : pyval) :
  names_read_whole names_attr →
  from_names r names_attr = py_list names_attr ≫= scan_positions r.
Proof.
  unfold names_read_whole, from_names, py_list, scan_positions.
  destruct (iterate names_attr) as [names stop]; cbn [fst snd].
  destruct (has_iter names_attr).
  - intros _. destruct stop; [done|]. apply (scan_names_positions r names 0).
  - intros [[=] | [-> | ->]].
    + rewrite (scan_names_positions r names 0). cbn. by destruct (foldl _ _ _).
    + by destruct stop.
Qed.

Lemma shape_of_cases (r : pyval) :
  shape_of r =
    if is_mapping r then NativeMapping
    else if has_rx2 r then NameIndexed
    else if has_names r then ParallelNames
    else Unrecognized.
Proof.
  unfold shape_of. cbn.
  destruct (is_mapping r), (has_rx2 r), (has_names r); done.
Qed.

Lemma normalize_unrecognized (r : pyval) :
  shape_of r = Unrecognized →
  normalize_year_range r = Raise (UnexpectedReturnType (py_type r)).
Proof.
  rewrite shape_of_cases. unfold has_rx2, has_names, normalize_year_range.
  destruct r as [| | | | | |d|o]; cbn; try done.
  destruct (ob_rx2 o); cbn; [done|].
  destruct (negb _); done.
Qed.

Lemma normalize_raises_unexpected (r : pyval) (t : pytype) :
  normalize_year_range r = Raise (UnexpectedReturnType t) →
  shape_of r = Unrecognized ∧ t = py_type r.
Proof.
  rewrite shape_of_cases. unfold has_rx2, has_names, normalize_year_range.
  destruct r as [| | | | | |d|o]; cbn; try (by intros [= <-]).
  - intros H. by apply propagate_raises in H as (e' & [=] & _).
  - destruct (ob_rx2 o); cbn.
    + intros H. by apply propagate_raises in H as (e' & [=] & _).
    + destruct (negb _); [|by intros [= <-]].
      intros H. by apply propagate_raises in H as (e' & [=] & _).
Qed.

Lemma normalize_keys (r : pyval) (d : gmap string Z) :
  normalize_year_range r = Ok d →
  dom d ⊆ year_keys ∧
  (is_mapping r || has_rx2 r = true → ∃ lo hi, d = year_range lo hi).
Proof.
  assert (∀ (x y : result exn Z),
            propagate (lo ← x; hi ← y; mret (year_range lo hi)) = Ok d →
            ∃ lo hi, d = year_range lo hi) as Hpair.
  { intros [lo|?] [hi|?]; cbn; try discriminate. intros [= <-]. eauto. }
  assert (∀ lo hi, d = year_range lo hi → dom d ⊆ year_keys) as Hdom.
  { intros lo hi ->. by rewrite year_range_dom. }
  unfold normalize_year_range, has_rx2.
  destruct r as [| | | | | |dict|o]; cbn; try discriminate.
  - intros H. apply Hpair in H as (lo & hi & H). eauto.
  - destruct (ob_rx2 o) as [rx2|]; cbn.
    + intros H. apply Hpair in H as (lo & hi & H). eauto.
    + destruct (negb _); [|discriminate].
      intros H. apply propagate_ok in H. split; [|done].
      unfold from_names in H.
      destruct (has_iter _).
      * apply bind_ok in H as (names & _ & H).
        by apply (scan_names_dom _ _ _ _ _ (empty_subseteq _) H).
      * destruct (iterate _) as [names stop].
        apply bind_ok in H as (res & H & Hstop).
        destruct stop; [discriminate|]. injection Hstop as <-.
        by apply (scan_names_dom _ _ _ _ _ (empty_subseteq _) H).
Qed.

(** C4. The normalization in [get_available_years] follows the policy:
    the shapes are tried in the order native mapping, name-indexed
    extraction, parallel names, and the first that applies decides what is
    returned or raised, with no fallback to a later one. Where the names
    attribute is what decides, its names are taken to be scanned as a
    whole. *)
Theorem normalization_follows_policy (r : pyval) :
  (shape_of r = ParallelNames → names_read_whole (getattr_names r)) →
  normalize_year_range r = normalize_by_policy r.
Proof.
  unfold normalize_by_policy. rewrite shape_of_cases.
  unfold has_rx2, has_names, normalize_year_range.
  destruct r as [| | | | | |d|o]; cbn; try done.
  destruct (ob_rx2 o) as [rx2|] eqn:Hrx; cbn; rewrite ?Hrx.
  { intros _. reflexivity. }
  destruct (negb _) eqn:Hn; cbn; [|done].
  intros Hit. by rewrite from_names_positions by auto.
Qed.

(** ** [get_available_years] *)

Section Years.

Context (R : rpy2).

Lemma _get_pkg_raises (s s1 : state) (e : error) :
  _get_pkg R s = (Raise e, s1) → ∃ e', e = Propagated e'.
Proof.
  destruct (_pkg s) as [q|] eqn:Hc.
  - by rewrite (_get_pkg_cached R s q Hc).
  - destruct (importr R (now s) "meschooldata") as [q|e'] eqn:Hq.
    + by rewrite (_get_pkg_loaded R s q Hc Hq).
    + rewrite (_get_pkg_failed R s e' Hc Hq). intros [= <-]. eauto.
Qed.

(** What [get_available_years] returns or raises is either an exception
    that passed through, or the normalization of the value that the
    package returned. *)
Lemma get_available_years_outcome (s : state) :
  (∃ e, (get_available_years R s).1 = Raise (Propagated e)) ∨
  (∃ p s1 r,
     _get_pkg R s = (Ok p, s1) ∧
     pkg_get_available_years p (now s1) = Ok r ∧
     (get_available_years R s).1 = normalize_year_range r).
Proof.
  destruct (_get_pkg R s) as [[p|e] s1] eqn:H.
  - rewrite (get_available_years_run R s s1 p H). cbn [fst].
    destruct (pkg_get_available_years p (now s1)) as [r|e] eqn:Hr; cbn.
    + right. by exists p, s1, r.
    + left. by exists e.
  - left. destruct (_get_pkg_raises s s1 e H) as [e' ->]. exists e'.
    pose proof (run_without_handle R s s1 _ GetAvailableYears H) as Hrun.
    cbn in Hrun. unfold fmap, M_fmap in Hrun.
    destruct (get_available_years R s) as [[d|e''] s2]; cbn in *; congruence.
Qed.

Lemma returned_table_raises (r : result exn pyval) (e : error) :
  returned_table R r = Raise e → ∃ e', e = Propagated e'.
Proof.
  destruct r as [v|e']; cbn; [|intros [= <-]; eauto].
  destruct (isinstance_DataFrame v); [discriminate|].
  intros H. apply propagate_raises in H as (e'' & -> & _). eauto.
Qed.

(** The operations other than [get_available_years] raise only what
    passed through them. *)
Lemma run_raises_unexpected (o : op) (s : state) (t : pytype) :
  (run R o s).1 = Raise (UnexpectedReturnType t) → o = GetAvailableYears.
Proof.
  destruct (_get_pkg R s) as [[p|e] s1] eqn:H.
  2: { rewrite (run_without_handle R s s1 e o H). cbn.
       destruct (_get_pkg_raises s s1 e H) as [e' ->]. discriminate. }
  destruct o as [|y|ys|df|]; [| | | |done]; cbn; unfold fmap, M_fmap.
  - by rewrite H.
  - rewrite (fetch_enr_run R s s1 p y H).
    destruct (returned_table _ _) as [v|e] eqn:Hr; cbn; [discriminate|].
    apply returned_table_raises in Hr as [e' ->]. discriminate.
  - destruct (IntVector R ys) as [x|e] eqn:Hx.
    + rewrite (fetch_enr_multi_run R s s1 p ys x H Hx).
      destruct (returned_table _ _) as [v|e] eqn:Hr; cbn; [discriminate|].
      apply returned_table_raises in Hr as [e' ->]. discriminate.
    + by rewrite (fetch_enr_multi_unwrapped R s s1 p ys e H Hx).
  - destruct (py2rpy R df) as [x|e] eqn:Hx.
    + rewrite (tidy_enr_run R s s1 p df x H Hx).
      destruct (returned_table _ _) as [v|e] eqn:Hr; cbn; [discriminate|].
      apply returned_table_raises in Hr as [e' ->]. discriminate.
    + by rewrite (tidy_enr_unwrapped R s s1 p df e H Hx).
Qed.


(** C2. [get_available_years] raises the unexpected-return-type error
    exactly when the package returned a value that matches none of the
    three shapes, and the error carries the type of that value; no other
    operation raises it; and a plain integer is such a value. *)
Theorem unexpected_return_type (s : state) (t : pytype) :
  ((get_available_years R s).1 = Raise (UnexpectedReturnType t) ↔
   ∃ p s1 r,
     _get_pkg R s = (Ok p, s1) ∧
     pkg_get_available_years p (now s1) = Ok r ∧
     shape_of r = Unrecognized ∧ t = py_type r) ∧
  (∀ o, (run R o s).1 = Raise (UnexpectedReturnType t) → o = GetAvailableYears) ∧
  (∀ n, shape_of (PyInt n) = Unrecognized ∧
        normalize_year_range (PyInt n) = Raise (UnexpectedReturnType TInt)).
Proof.
  split; [split|split].
  - intros Hraise.
    destruct (get_available_years_outcome s) as [[e He] | (p & s1 & r & H & Hr & Hn)].
    { rewrite He in Hraise. discriminate. }
    rewrite Hn in Hraise.
    destruct (normalize_raises_unexpected r t Hraise) as [Hshape ->].
    by exists p, s1, r.
  - intros (p & s1 & r & H & Hr & Hshape & ->).
    rewrite (get_available_years_run R s s1 p H), Hr. cbn.
    by apply normalize_unrecognized.
  - intros o. apply run_raises_unexpected.
  - done.
Qed.

(** C7. When the package returns the plain mapping [{min_year: 2015,
    max_year: 2025}], or an object that exposes only the names [min_year],
    [max_year] beside the values 2015, 2025, [get_available_years] returns
    [{"min_year": 2015, "max_year": 2025}]. *)
Theorem normalization_examples (s s1 : state) (p : package) (r : pyval) :
  _get_pkg R s = (Ok p, s1) →
  pkg_get_available_years p (now s1) = Ok r →
  r = mapping_2015_2025 ∨
  r = names_only ["min_year"; "max_year"] [PyInt 2015; PyInt 2025] →
  (get_available_years R s).1 = Ok (year_range 2015 2025).
Proof.
  intros H Hr Hex. rewrite (get_available_years_run R s s1 p H), Hr.
  by destruct Hex as [-> | ->].
Qed.

(** C9. When the value that the package returned is no mapping, has no
    [rx2], and has a [names] attribute other than [None] whose names, drawn
    to the end, include neither [min_year] nor [max_year], then
    [get_available_years] returns the empty dict, which has neither key,
    and raises nothing. *)
Theorem names_without_year_keys (s s1 : state) (p : package) (r : pyval)
    (names : list pyval) :
  _get_pkg R s = (Ok p, s1) →
  pkg_get_available_years p (now s1) = Ok r →
  is_mapping r = false →
  has_rx2 r = false →
  is_None (getattr_names r) = false →
  iterate (getattr_names r) = (names, None) →
  Forall (λ name, year_key name = None) names →
  (get_available_years R s).1 = Ok ∅ ∧
  (∅ : gmap string Z) !! "min_year" = None ∧
  (∅ : gmap string Z) !! "max_year" = None.
Proof.
  intros H Hr Hmap Hrx Hnone Hit Hall.
  split; [|done].
  rewrite (get_available_years_run R s s1 p H), Hr. cbn.
  unfold normalize_year_range, has_rx2 in *.
  destruct r as [| | | | | |d|o]; try discriminate.
  destruct (rx2_of (PyObj o)); [discriminate|].
  rewrite Hnone. cbn [negb]. unfold from_names, py_list. rewrite Hit.
  destruct (has_iter _); cbn; by rewrite scan_names_no_key.
Qed.

End Years.

(** ** The sample installation at work *)

Example int_of_str_examples :
  (str_to_int "-12", str_to_int " 2_025 ", str_to_int "1__2", str_to_int "20.5") =
  (Ok (-12), Ok 2025, Raise ValueError, Raise ValueError).
Proof. reflexivity. Qed.

Example int_of_str_beyond_ascii :
  (str_to_int "２０２５", str_to_int (String (ascii_of_nat 28) "2025"),
   dict_get [("min_year", PyInt 1); ("min_year", PyInt 2015)] "min_year") =
  (Ok 2025, Raise ValueError, Some (PyInt 2015)).
Proof. reflexivity. Qed.

Example int_of_float_examples :
  (float_to_int (FFinite 2015 0), float_to_int (FFinite (-7) (-1)), float_to_int FNaN) =
  (Ok 2015, Ok (-3), Raise ValueError).
Proof. reflexivity. Qed.

(** An object with both [rx2] and [names] is read through [rx2]; when that
    fails, the names are not tried. *)
Example rx2_before_names :
  normalize_year_range
    (list_vector [("min_year", PyFloat (FFinite 2015 0)); ("max_year", PyStr "2025")]) =
    Ok (year_range 2015 2025) ∧
  normalize_year_range (list_vector [("min_year", PyInt 2015)]) =
    Raise (Propagated TypeError).
Proof. split; reflexivity. Qed.

Example fetch_enr_sample :
  (fetch_enr (sample_rpy2 0 mapping_2015_2025) 2020 init).1 =
    Ok (pandas_frame (sample_rows [2020])).
Proof. reflexivity. Qed.

Lemma sample_rpy2py_native (ready : nat) (years x x' : pyval) :
  rpy2py (sample_rpy2 ready years) x = Ok x' → foreign_frame x' = false.
Proof.
  cbn. destruct (table_of x) as [t|] eqn:Ht; intros [= <-]; [done|].
  destruct x as [| | | | | | |o]; try done.
  cbn in *. by destruct (ob_table o).
Qed.



(** The package is missing at first and found at the second attempt. *)
Lemma get_pkg_lazy_singleton_witness :
  let R := sample_rpy2 1 mapping_2015_2025 in
  let ops := [GetAvailableYears; FetchEnr 2020] in
  let s' := (_get_pkg R (exec_all R init ops)).2 in
  _get_pkg R (exec_all R init ops) = (Ok (sample_pkg mapping_2015_2025), s') ∧
  imports s' = 2%nat ∧
  loads s' = 1%nat ∧
  ∀ ops', _get_pkg R (exec_all R s' ops') =
            (Ok (sample_pkg mapping_2015_2025), exec_all R s' ops').
Proof.
  intros R ops s'.
  assert (_get_pkg R (exec_all R init ops) = (Ok (sample_pkg mapping_2015_2025), s'))
    as Hget by reflexivity.
  destruct (get_pkg_lazy_singleton R ops (sample_pkg mapping_2015_2025) s' Hget)
    as (_ & Hloads & Hlater).
  split; [exact Hget|]. split; [reflexivity|]. split; [exact Hloads|].
  intros ops'. exact (proj1 (Hlater ops')).
Defined.

Lemma normalization_follows_policy_witness :
  let r := names_only ["max_year"; "min_year"] [PyStr "2025"; PyBool true] in
  shape_of r = ParallelNames ∧
  normalize_year_range r = normalize_by_policy r ∧
  normalize_year_range r = Ok (<["min_year" := 1]> (<["max_year" := 2025]> ∅)).
Proof.
  intros r. split; [reflexivity|]. split; [|reflexivity].
  exact (normalization_follows_policy r (λ _, or_introl eq_refl)).
Defined.

Lemma returned_tables_are_native_witness :
  let R := sample_rpy2 0 mapping_2015_2025 in
  let v := pandas_frame (sample_rows [2020; 2021]) in
  (run R (FetchEnrMulti [2020; 2021]) init).1 = Ok (Table v) ∧
  foreign_frame v = false ∧
  isinstance_DataFrame v = true.
Proof.
  intros R v.
  assert ((run R (FetchEnrMulti [2020; 2021]) init).1 = Ok (Table v)) as Hrun
    by reflexivity.
  destruct (returned_tables_are_native R (FetchEnrMulti [2020; 2021]) init v
              (sample_rpy2py_native 0 mapping_2015_2025) eq_refl Hrun)
    as [Hnot Hnative].
  split; [exact Hrun|]. split; [exact Hnot|].
  apply Hnative. by eexists.
Defined.

Lemma fetch_enr_multi_single_year_witness :
  let R := sample_rpy2 0 mapping_2015_2025 in
  (fetch_enr_multi R [2020] init).1 = (fetch_enr R 2020 init).1 ∧
  (fetch_enr R 2020 init).1 = Ok (pandas_frame (sample_rows [2020])).
Proof.
  intros R. split; [|reflexivity].
  exact (proj1 (fetch_enr_multi_single_year R init
                  (_get_pkg R init).2 (sample_pkg mapping_2015_2025) 2020
                  (PyList [PyInt 2020]) eq_refl eq_refl (λ _ _, eq_refl))).
Defined.

Lemma normalization_examples_witness :
  (get_available_years (sample_rpy2 0 mapping_2015_2025) init).1 =
    Ok (year_range 2015 2025).
Proof.
  exact (normalization_examples (sample_rpy2 0 mapping_2015_2025) init
           (_get_pkg (sample_rpy2 0 mapping_2015_2025) init).2
           (sample_pkg mapping_2015_2025) mapping_2015_2025
           eq_refl eq_refl (or_introl eq_refl)).
Defined.

Lemma foreign_errors_propagate_witness :
  let R := sample_rpy2 0 mapping_2015_2025 in
  let e := RRuntimeError "end_year must be between 2015 and 2025" in
  fetch_enr R 1999 init =
    (Raise (Propagated e), called Rfetch_enr (_get_pkg R init).2) ∧
  fetch_enr_multi R [2020; 1999] init =
    (Raise (Propagated e), called Rfetch_enr_multi (_get_pkg R init).2).
Proof.
  intros R e.
  destruct (foreign_errors_propagate R init (_get_pkg R init).2
              (sample_pkg mapping_2015_2025) e eq_refl)
    as (Hsingle & Hmulti & _).
  split.
  - exact (Hsingle 1999 eq_refl).
  - exact (Hmulti [2020; 1999] (PyList [PyInt 2020; PyInt 1999]) eq_refl eq_refl).
Defined.

Lemma names_without_year_keys_witness :
  (get_available_years (sample_rpy2 0 other_names) init).1 = Ok ∅.
Proof.
  assert (Forall (λ name, year_key name = None)
            [PyStr "first_year"; PyStr "last_year"]) as Hall
    by (repeat constructor).
  exact (proj1 (names_without_year_keys (sample_rpy2 0 other_names) init
                  (_get_pkg (sample_rpy2 0 other_names) init).2
                  (sample_pkg other_names) other_names
                  [PyStr "first_year"; PyStr "last_year"]
                  eq_refl eq_refl eq_refl eq_refl eq_refl eq_refl
                  Hall)).
Defined.

(** The package is missing at the first call and the second call asks for
    it again. *)
Lemma load_failure_not_cached_witness :
  let R := sample_rpy2 1 mapping_2015_2025 in
  let s' := exec R init (FetchEnr 2020) in
  (run R (FetchEnr 2020) init).1 =
    Raise (Propagated (PackageNotInstalledError "meschooldata")) ∧
  _pkg s' = None ∧
  ∃ rest, trace (exec R s' GetAvailableYears) =
            (trace s' ++ Import "meschooldata" true :: rest)%list.
Proof.
  intros R s'.
  destruct (load_failure_not_cached R init
              (PackageNotInstalledError "meschooldata") (FetchEnr 2020)
              eq_refl eq_refl)
    as (Hraise & Hcache & _ & Hnext).
  split; [exact Hraise|]. split; [exact Hcache|].
  exact (Hnext GetAvailableYears).
Defined.

Lemma unexpected_return_type_witness :
  (get_available_years (sample_rpy2 0 (PyInt 7)) init).1 =
    Raise (UnexpectedReturnType TInt).
Proof.
  apply (proj2 (proj1 (unexpected_return_type (sample_rpy2 0 (PyInt 7)) init TInt))).
  exists (sample_pkg (PyInt 7)), (_get_pkg (sample_rpy2 0 (PyInt 7)) init).2, (PyInt 7).
  repeat split; reflexivity.
Defined.

(** ** More on the operations and the handle *)

Section MoreOperations.

Context (R : rpy2).

Lemma calls_app (s : state) (evs : list event) (c : option package) :
  calls {| _pkg := c; trace := trace s ++ evs |} =
    (calls s + List.length (List.filter is_call evs))%nat.
Proof. unfold calls; cbn. by rewrite List.filter_app, List.length_app. Qed.

(** [_get_pkg] calls no function of the package, and [importr] at most
    once. *)
Lemma _get_pkg_counts (s : state) :
  calls (_get_pkg R s).2 = calls s ∧
  (imports (_get_pkg R s).2 ≤ imports s + 1)%nat.
Proof.
  destruct (_pkg s) as [q|] eqn:Hc.
  - rewrite (_get_pkg_cached R s q Hc). cbn [snd]. lia.
  - destruct (importr R (now s) "meschooldata") as [q|e] eqn:Hq.
    + rewrite (_get_pkg_loaded R s q Hc Hq). cbn [snd].
      rewrite calls_app, imports_app. cbn. lia.
    + rewrite (_get_pkg_failed R s e Hc Hq). cbn [snd].
      rewrite calls_app, imports_app. cbn. lia.
Qed.

(** X1. When converting the argument fails, the operation raises that
    exception after [_get_pkg] and the package is not called:
    [fetch_enr_multi] on [IntVector], [tidy_enr] on [py2rpy]. *)
Theorem argument_conversion_failure (s s1 : state) (p : package) (e : exn) :
  _get_pkg R s = (Ok p, s1) →
  calls s1 = calls s ∧
  (∀ end_years,
     IntVector R end_years = Raise e →
     fetch_enr_multi R end_years s = (Raise (Propagated e), s1)) ∧
  (∀ df,
     py2rpy R df = Raise e →
     tidy_enr R df s = (Raise (Propagated e), s1)).
Proof.
  intros H. split.
  { pose proof (_get_pkg_counts s) as [Hcalls _]. by rewrite H in Hcalls. }
  split.
  - intros ys Hv. by apply (fetch_enr_multi_unwrapped R s s1 p).
  - intros df Hv. by apply (tidy_enr_unwrapped R s s1 p).
Qed.

(** X2. A [pandas.DataFrame] that comes back from the call is returned as it
    is; [rpy2py] has no say in it. *)
Theorem converted_frame_passes_through (s s1 : state) (p : package) (v : pyval) :
  _get_pkg R s = (Ok p, s1) →
  isinstance_DataFrame v = true →
  (∀ end_year,
     pkg_fetch_enr p (now s1) (PyInt end_year) = Ok v →
     (fetch_enr R end_year s).1 = Ok v) ∧
  (∀ end_years r_years,
     IntVector R end_years = Ok r_years →
     pkg_fetch_enr_multi p (now s1) r_years = Ok v →
     (fetch_enr_multi R end_years s).1 = Ok v) ∧
  (∀ df r_df,
     py2rpy R df = Ok r_df →
     pkg_tidy_enr p (now s1) r_df = Ok v →
     (tidy_enr R df s).1 = Ok v).
Proof.
  intros H Hdf. repeat split.
  - intros y Hr. rewrite (fetch_enr_run R s s1 p y H), Hr. cbn. by rewrite Hdf.
  - intros ys x Hx Hr.
    rewrite (fetch_enr_multi_run R s s1 p ys x H Hx), Hr. cbn. by rewrite Hdf.
  - intros df x Hx Hr.
    rewrite (tidy_enr_run R s s1 p df x H Hx), Hr. cbn. by rewrite Hdf.
Qed.

(** X3. When the call returned something that is no [pandas.DataFrame] and
    [rpy2py] fails on it, the operation raises that exception; the call
    has been made and is not repeated. *)
Theorem result_conversion_failure (s s1 : state) (p : package) (v : pyval) (e : exn) :
  _get_pkg R s = (Ok p, s1) →
  isinstance_DataFrame v = false →
  rpy2py R v = Raise e →
  (∀ end_year,
     pkg_fetch_enr p (now s1) (PyInt end_year) = Ok v →
     fetch_enr R end_year s = (Raise (Propagated e), called Rfetch_enr s1)) ∧
  (∀ end_years r_years,
     IntVector R end_years = Ok r_years →
     pkg_fetch_enr_multi p (now s1) r_years = Ok v →
     fetch_enr_multi R end_years s =
       (Raise (Propagated e), called Rfetch_enr_multi s1)) ∧
  (∀ df r_df,
     py2rpy R df = Ok r_df →
     pkg_tidy_enr p (now s1) r_df = Ok v →
     tidy_enr R df s = (Raise (Propagated e), called Rtidy_enr s1)).
Proof.
  intros H Hdf Hpy. repeat split.
  - intros y Hr. rewrite (fetch_enr_run R s s1 p y H), Hr. cbn.
    by rewrite Hdf, Hpy.
  - intros ys x Hx Hr.
    rewrite (fetch_enr_multi_run R s s1 p ys x H Hx), Hr. cbn.
    by rewrite Hdf, Hpy.
  - intros df x Hx Hr.
    rewrite (tidy_enr_run R s s1 p df x H Hx), Hr. cbn.
    by rewrite Hdf, Hpy.
Qed.

(** X4. Whatever an operation returns or raises once [_get_pkg] has the handle,
    the handle stays in the cache, and the operation after it does not call
    [importr]. *)
Theorem handle_survives_errors (s s1 : state) (p : package) (o : op) :
  _get_pkg R s = (Ok p, s1) →
  _pkg (exec R s o) = Some p ∧
  imports (exec R s o) = imports s1 ∧
  ∀ o', _pkg (exec R (exec R s o) o') = Some p ∧
        imports (exec R (exec R s o) o') = imports s1.
Proof.
  intros H. pose proof (_get_pkg_returns R s s1 p H) as Hc.
  assert (_pkg (exec R s o) = Some p ∧ imports (exec R s o) = imports s1) as [Hp Hi].
  { pose proof (exec_after_get_pkg R s o) as Hex. rewrite H in Hex. cbn [snd] in Hex.
    destruct Hex as [-> | [f ->]]; [done|].
    split; [done|]. unfold called. rewrite imports_app. cbn. lia. }
  repeat split; [done..| |].
  - by apply exec_keeps_handle.
  - rewrite <- Hi. by apply (exec_keeps_handle R (exec R s o) p o').
Qed.

Lemma asks_meschooldata_get_pkg (s : state) :
  Forall asks_meschooldata (trace s) →
  Forall asks_meschooldata (trace (_get_pkg R s).2).
Proof.
  intros Hs. destruct (_pkg s) as [q|] eqn:Hc.
  - by rewrite (_get_pkg_cached R s q Hc).
  - destruct (importr R (now s) "meschooldata") as [q|e] eqn:Hq.
    + rewrite (_get_pkg_loaded R s q Hc Hq). cbn [snd trace].
      apply Forall_app. split; [done|]. by repeat constructor.
    + rewrite (_get_pkg_failed R s e Hc Hq). cbn [snd trace].
      apply Forall_app. split; [done|]. by repeat constructor.
Qed.

Lemma handle_origin_get_pkg (s : state) :
  (∀ p, _pkg s = Some p → ∃ t, importr R t "meschooldata" = Ok p) →
  ∀ p, _pkg (_get_pkg R s).2 = Some p → ∃ t, importr R t "meschooldata" = Ok p.
Proof.
  intros Hs p. destruct (_pkg s) as [q|] eqn:Hc.
  - rewrite (_get_pkg_cached R s q Hc). cbn [snd]. rewrite Hc. apply Hs.
  - destruct (importr R (now s) "meschooldata") as [q|e] eqn:Hq.
    + rewrite (_get_pkg_loaded R s q Hc Hq). cbn. intros [= <-]. eauto.
    + rewrite (_get_pkg_failed R s e Hc Hq). cbn. discriminate.
Qed.

Lemma handle_origin_exec_all (ops : list op) :
  ∀ s,
    (∀ p, _pkg s = Some p → ∃ t, importr R t "meschooldata" = Ok p) →
    Forall asks_meschooldata (trace s) →
    (∀ p, _pkg (exec_all R s ops) = Some p →
          ∃ t, importr R t "meschooldata" = Ok p) ∧
    Forall asks_meschooldata (trace (exec_all R s ops)).
Proof.
  induction ops as [|o ops IH]; intros s Hs Htr; [done|].
  change (exec_all R s (o :: ops)) with (exec_all R (exec R s o) ops).
  pose proof (handle_origin_get_pkg s Hs) as Hs1.
  pose proof (asks_meschooldata_get_pkg s Htr) as Htr1.
  destruct (exec_after_get_pkg R s o) as [Heq | [f Heq]]; rewrite Heq.
  - by apply IH.
  - apply IH; [done|]. unfold called; cbn [trace].
    apply Forall_app. split; [done|]. by repeat constructor.
Qed.

(** X5. Along every sequence of calls from the start, the handle in the cache
    is one that [importr("meschooldata")] returned, and no other package
    was ever asked for. *)
Theorem cached_handle_from_importr (ops : list op) (p : package) :
  _pkg (exec_all R init ops) = Some p →
  (∃ t, importr R t "meschooldata" = Ok p) ∧
  Forall asks_meschooldata (trace (exec_all R init ops)).
Proof.
  intros Hp.
  destruct (handle_origin_exec_all ops init) as [Horigin Hnames];
    [discriminate | constructor |].
  split; [by apply Horigin | done].
Qed.

Lemma exec_counts (s : state) (o : op) :
  (imports (exec R s o) ≤ imports s + 1)%nat ∧
  (calls (exec R s o) ≤ calls s + 1)%nat.
Proof.
  pose proof (_get_pkg_counts s) as [Hcalls Himports].
  destruct (exec_after_get_pkg R s o) as [-> | [f ->]]; [lia|].
  unfold called. rewrite imports_app, calls_app. cbn. lia.
Qed.

(** X6. A sequence of [n] calls of the module makes at most [n] calls of
    [importr] and at most [n] calls of functions of the package: no
    operation asks twice. *)
Theorem one_call_per_operation (ops : list op) (s : state) :
  (imports (exec_all R s ops) ≤ imports s + List.length ops)%nat ∧
  (calls (exec_all R s ops) ≤ calls s + List.length ops)%nat.
Proof.
  revert s. induction ops as [|o ops IH]; intros s; [cbn; lia|].
  change (exec_all R s (o :: ops)) with (exec_all R (exec R s o) ops).
  destruct (IH (exec R s o)) as [Hi Hc].
  destruct (exec_counts s o) as [Hi1 Hc1]. cbn [List.length]. lia.
Qed.

(** With the handle [p], an operation returns or raises [outcome]. *)
Lemma run_outcome (s s1 : state) (p : package) (o : op) :
  _get_pkg R s = (Ok p, s1) → (run R o s).1 = outcome R p (now s1) o.
Proof.
  intros H. destruct o as [|y|ys|df|]; cbn; unfold fmap at 1, M_fmap.
  - by rewrite H.
  - rewrite (fetch_enr_run R s s1 p y H). cbn [fst].
    by destruct (returned_table _ _).
  - destruct (IntVector R ys) as [x|e] eqn:Hx; cbn.
    + rewrite (fetch_enr_multi_run R s s1 p ys x H Hx). cbn [fst].
      by destruct (returned_table _ _).
    + by rewrite (fetch_enr_multi_unwrapped R s s1 p ys e H Hx).
  - destruct (py2rpy R df) as [x|e] eqn:Hx; cbn.
    + rewrite (tidy_enr_run R s s1 p df x H Hx). cbn [fst].
      by destruct (returned_table _ _).
    + by rewrite (tidy_enr_unwrapped R s s1 p df e H Hx).
  - rewrite (get_available_years_run R s s1 p H). cbn [fst].
    destruct (pkg_get_available_years p (now s1)) as [r|e]; cbn; [|done].
    by destruct (normalize_year_range r).
Qed.

Lemma outcome_stable (p : package) (t t' : nat) (o : op) :
  stable p → outcome R p t o = outcome R p t' o.
Proof.
  intros Hst. destruct (Hst t t') as (H1 & H2 & H3 & H4).
  destruct o as [|y|ys|df|]; cbn; [done| | | |].
  - by rewrite H1.
  - destruct (IntVector R ys) as [x|e]; cbn; [|done]. by rewrite H2.
  - destruct (py2rpy R df) as [x|e]; cbn; [|done]. by rewrite H3.
  - by rewrite H4.
Qed.

(** X7. Once the handle can be had and the package answers the same at all
    times, what an operation returns or raises does not depend on the calls
    made before it: the cache is the only state the module keeps. *)
Theorem outcome_independent_of_history (s s1 : state) (p : package)
    (before : list op) (o : op) :
  _get_pkg R s = (Ok p, s1) →
  stable p →
  (run R o (exec_all R s1 before)).1 = (run R o s).1.
Proof.
  intros H Hst. pose proof (_get_pkg_returns R s s1 p H) as Hc.
  destruct (exec_all_keeps_handle R before s1 p Hc) as [Hc' _].
  rewrite (run_outcome s s1 p o H).
  rewrite (run_outcome (exec_all R s1 before) _ p o
             (_get_pkg_cached R (exec_all R s1 before) p Hc')).
  by apply outcome_stable.
Qed.

End MoreOperations.

(** ** More on the normalization *)

Lemma years_returned_normalized (R : rpy2) (s : state) (r : pyval) :
  years_returned R s r →
  (get_available_years R s).1 = normalize_year_range r.
Proof.
  intros (p & s1 & H & Hr). by rewrite (get_available_years_run R s s1 p H), Hr.
Qed.

Lemma year_range_inj (lo hi lo' hi' : Z) :
  year_range lo hi = year_range lo' hi' → lo = lo' ∧ hi = hi'.
Proof.
  intros Heq.
  pose proof (year_range_min lo hi) as Hmin. rewrite Heq, year_range_min in Hmin.
  pose proof (year_range_max lo hi) as Hmax. rewrite Heq, year_range_max in Hmax.
  split; congruence.
Qed.

Lemma year_key_spec (name : pyval) (key : string) :
  year_key name = Some key ↔ name = PyStr key ∧ key ∈ year_keys.
Proof.
  split.
  - intros H. split; [|by apply (year_key_in name)].
    destruct name as [| | | |s| | |]; cbn in H; try discriminate.
    destruct (_ || _); [|discriminate]. by injection H as <-.
  - intros [-> Hkey]. unfold year_keys in Hkey.
    apply elem_of_union in Hkey as [Hkey | Hkey];
      apply elem_of_singleton in Hkey as ->; reflexivity.
Qed.

Lemma read_by_names_scan (r : pyval) (names : list pyval) :
  read_by_names r names →
  normalize_year_range r = propagate (scan_names r 0 names ∅).
Proof.
  intros (Hmap & Hrx & Hnone & Hit).
  unfold normalize_year_range, has_rx2 in *.
  destruct r as [| | | | | |d|o]; try discriminate.
  destruct (rx2_of (PyObj o)); [discriminate|].
  rewrite Hnone. cbn [negb]. unfold from_names, py_list. rewrite Hit.
  destruct (has_iter _); cbn; [done|]. by destruct (scan_names _ _ _ _).
Qed.

Lemma scan_names_app (r : pyval) (pre post : list pyval) :
  ∀ (i : Z) (res : gmap string Z),
    scan_names r i (pre ++ post) res =
      scan_names r i pre res ≫= scan_names r (i + Z.of_nat (List.length pre)) post.
Proof.
  induction pre as [|name pre IH]; intros i res.
  - cbn. f_equal. lia.
  - cbn [app scan_names List.length].
    replace (i + Z.of_nat (S (List.length pre)))
      with (i + 1 + Z.of_nat (List.length pre)) by lia.
    destruct (year_key name) as [key|]; [|apply IH].
    destruct (py_getitem r i) as [x|e]; cbn; [|done].
    destruct (py_int x) as [n|e]; cbn; [|done]. apply IH.
Qed.

(** A key that is not among the names keeps what it had. *)
Lemma scan_names_keeps (r : pyval) (key : string) (names : list pyval) :
  ∀ (i : Z) (res d : gmap string Z),
    PyStr key ∉ names →
    scan_names r i names res = Ok d →
    d !! key = res !! key.
Proof.
  induction names as [|name rest IH]; intros i res d Hnot; cbn.
  - by intros [= <-].
  - apply not_elem_of_cons in Hnot as [Hne Hrest].
    destruct (year_key name) as [key'|] eqn:Hkey; [|by apply IH].
    apply year_key_spec in Hkey as [-> _].
    intros H. apply bind_ok in H as (x & _ & H).
    apply bind_ok in H as (n & _ & H).
    rewrite (IH _ _ _ Hrest H). apply lookup_insert_ne. congruence.
Qed.

Lemma scan_names_found (r : pyval) (names : list pyval) :
  ∀ (i : Z) (res d : gmap string Z),
    scan_names r i names res = Ok d →
    ∀ key, key ∈ dom d ↔ key ∈ dom res ∨ (key ∈ year_keys ∧ PyStr key ∈ names).
Proof.
  induction names as [|name rest IH]; intros i res d; cbn.
  - intros [= <-] key. split; [by left|]. intros [H | [_ H]]; [done|].
    by apply elem_of_nil in H.
  - destruct (year_key name) as [key'|] eqn:Hkey.
    + apply year_key_spec in Hkey as [-> Hkey'].
      intros H. apply bind_ok in H as (x & _ & H).
      apply bind_ok in H as (n & _ & H).
      intros key. rewrite (IH _ _ _ H key), dom_insert_L, elem_of_union,
        elem_of_singleton, elem_of_cons.
      split.
      * intros [[-> | Hres] | [Hk Hin]]; eauto.
      * intros [Hres | [Hk [[= ->] | Hin]]]; eauto.
    + intros H key. rewrite (IH _ _ _ H key), elem_of_cons.
      split.
      * intros [Hres | [Hk Hin]]; eauto.
      * intros [Hres | [Hk [Heq | Hin]]]; [by left | | by right].
        subst name.
        rewrite (proj2 (year_key_spec (PyStr key) key) (conj eq_refl Hk)) in Hkey.
        discriminate.
Qed.

Lemma scan_names_agree (r r' : pyval) (names : list pyval) :
  ∀ (i : Z) (res : gmap string Z),
    (∀ (j : nat) name,
       names !! j = Some name → is_Some (year_key name) →
       py_getitem r (i + Z.of_nat j) = py_getitem r' (i + Z.of_nat j)) →
    scan_names r i names res = scan_names r' i names res.
Proof.
  induction names as [|name rest IH]; intros i res Hagree; [done|].
  cbn [scan_names].
  assert (∀ res', scan_names r (i + 1) rest res' = scan_names r' (i + 1) rest res')
    as Hrest.
  { intros res'. apply IH. intros j name' Hj Hk.
    replace (i + 1 + Z.of_nat j) with (i + Z.of_nat (S j)) by lia.
    apply (Hagree (S j) name'); [exact Hj | exact Hk]. }
  destruct (year_key name) as [key|] eqn:Hkey; [|apply Hrest].
  replace (py_getitem r' i) with (py_getitem r i).
  2: { replace i with (i + Z.of_nat 0) by lia.
       apply (Hagree 0%nat name); [done|]. rewrite Hkey. by eexists. }
  destruct (py_getitem r i) as [x|e]; cbn; [|done].
  destruct (py_int x) as [n|e]; cbn; [|done]. apply Hrest.
Qed.

Section MoreYears.

Context (R : rpy2).

(** X8. On a native mapping [get_available_years] returns a dict exactly when
    both keys are there and [int] accepts both values, and the dict holds
    the two coerced values; other keys of the mapping play no part. *)
Theorem mapping_years (s : state) (d : list (string * pyval)) (m : gmap string Z) :
  years_returned R s (PyDict d) →
  (get_available_years R s).1 = Ok m ↔
  ∃ x y lo hi,
    dict_get d "min_year" = Some x ∧ dict_get d "max_year" = Some y ∧
    py_int x = Ok lo ∧ py_int y = Ok hi ∧ m = year_range lo hi.
Proof.
  intros Hr. rewrite (years_returned_normalized R s _ Hr). cbn.
  unfold dict_getitem.
  destruct (dict_get d "min_year") as [x|]; cbn.
  2: { split; [discriminate|]. by intros (? & ? & ? & ? & [=] & _). }
  destruct (py_int x) as [lo|e] eqn:Hlo; cbn.
  2: { split; [discriminate|]. intros (? & ? & ? & ? & [= <-] & _ & Hx & _). congruence. }
  destruct (dict_get d "max_year") as [y|]; cbn.
  2: { split; [discriminate|]. by intros (? & ? & ? & ? & _ & [=] & _). }
  destruct (py_int y) as [hi|e] eqn:Hhi; cbn.
  2: { split; [discriminate|].
       intros (? & ? & ? & ? & _ & [= <-] & _ & Hy & _). congruence. }
  split.
  - intros [= <-]. by exists x, y, lo, hi.
  - intros (? & ? & lo' & hi' & [= <-] & [= <-] & Hx & Hy & ->). congruence.
Qed.

(** X9. A native mapping without [min_year] makes [get_available_years] raise
    [KeyError] for it, whatever else the mapping holds; [max_year] is only
    missed once [min_year] has been read and coerced. *)
Theorem mapping_missing_key (s : state) (d : list (string * pyval)) :
  years_returned R s (PyDict d) →
  (dict_get d "min_year" = None →
   (get_available_years R s).1 = Raise (Propagated (KeyError "min_year"))) ∧
  (∀ x lo,
     dict_get d "min_year" = Some x → py_int x = Ok lo →
     dict_get d "max_year" = None →
     (get_available_years R s).1 = Raise (Propagated (KeyError "max_year"))).
Proof.
  intros Hr. rewrite (years_returned_normalized R s _ Hr). cbn.
  unfold dict_getitem. split.
  - by intros ->.
  - intros x lo -> Hlo ->. cbn. by rewrite Hlo.
Qed.

(** X10. On an object with [rx2], [get_available_years] returns a dict exactly
    when [rx2] yields a value for either key whose element 0 [int]
    accepts; the dict holds the two coerced elements. *)
Theorem rx2_years (s : state) (r : pyval) (rx2 : string → result exn pyval)
    (m : gmap string Z) :
  years_returned R s r →
  is_mapping r = false →
  rx2_of r = Some rx2 →
  (get_available_years R s).1 = Ok m ↔
  ∃ v w x y lo hi,
    rx2 "min_year" = Ok v ∧ py_getitem v 0 = Ok x ∧ py_int x = Ok lo ∧
    rx2 "max_year" = Ok w ∧ py_getitem w 0 = Ok y ∧ py_int y = Ok hi ∧
    m = year_range lo hi.
Proof.
  intros Hr Hmap Hrx. rewrite (years_returned_normalized R s _ Hr).
  unfold normalize_year_range.
  destruct r as [| | | | | |d|o]; try discriminate. rewrite Hrx. cbn.
  destruct (rx2 "min_year") as [v|e]; cbn.
  2: { split; [discriminate|]. by intros (? & ? & ? & ? & ? & ? & [=] & _). }
  destruct (py_getitem v 0) as [x|e] eqn:Hx; cbn.
  2: { split; [discriminate|].
       intros (? & ? & ? & ? & ? & ? & [= <-] & Hx' & _). congruence. }
  destruct (py_int x) as [lo|e] eqn:Hlo; cbn.
  2: { split; [discriminate|].
       intros (? & ? & ? & ? & ? & ? & [= <-] & Hx' & Hlo' & _). congruence. }
  destruct (rx2 "max_year") as [w|e]; cbn.
  2: { split; [discriminate|].
       by intros (? & ? & ? & ? & ? & ? & _ & _ & _ & [=] & _). }
  destruct (py_getitem w 0) as [y|e] eqn:Hy; cbn.
  2: { split; [discriminate|].
       intros (? & ? & ? & ? & ? & ? & _ & _ & _ & [= <-] & Hy' & _). congruence. }
  destruct (py_int y) as [hi|e] eqn:Hhi; cbn.
  2: { split; [discriminate|].
       intros (? & ? & ? & ? & ? & ? & _ & _ & _ & [= <-] & Hy' & Hhi' & _).
       congruence. }
  split.
  - intros [= <-]. by exists v, w, x, y, lo, hi.
  - intros (? & ? & ? & ? & lo' & hi' & [= <-] & Hx' & Hlo' & [= <-] & Hy' & Hhi' & ->).
    congruence.
Qed.

(** X11. On the names fallback, the dict that [get_available_years] returns has
    a key exactly when the key is [min_year] or [max_year] and occurs among
    the names. *)
Theorem names_keys_found (s : state) (r : pyval) (names : list pyval)
    (m : gmap string Z) :
  years_returned R s r →
  read_by_names r names →
  (get_available_years R s).1 = Ok m →
  ∀ key, key ∈ dom m ↔ key ∈ year_keys ∧ PyStr key ∈ names.
Proof.
  intros Hr Hnames. rewrite (years_returned_normalized R s _ Hr).
  rewrite (read_by_names_scan r names Hnames). intros H%propagate_ok key.
  rewrite (scan_names_found r names 0 ∅ m H key), dom_empty_L.
  split; [|by right]. intros [Hin | Hin]; [|done]. by apply elem_of_empty in Hin.
Qed.

(** X12. On the names fallback, a key takes the value at the last position that
    carries its name. *)
Theorem names_last_position_wins (s : state) (r : pyval) (pre post : list pyval)
    (key : string) (m : gmap string Z) :
  years_returned R s r →
  read_by_names r (pre ++ PyStr key :: post) →
  key ∈ year_keys →
  PyStr key ∉ post →
  (get_available_years R s).1 = Ok m →
  ∃ x n,
    py_getitem r (Z.of_nat (List.length pre)) = Ok x ∧ py_int x = Ok n ∧
    m !! key = Some n.
Proof.
  intros Hr Hnames Hkey Hpost. rewrite (years_returned_normalized R s _ Hr).
  rewrite (read_by_names_scan r _ Hnames). intros H%propagate_ok.
  rewrite scan_names_app in H. apply bind_ok in H as (res1 & _ & H).
  cbn [scan_names] in H.
  rewrite (proj2 (year_key_spec (PyStr key) key) (conj eq_refl Hkey)) in H.
  apply bind_ok in H as (x & Hx & H). apply bind_ok in H as (n & Hn & H).
  exists x, n. repeat split; [done..|].
  rewrite (scan_names_keeps r key post _ _ m Hpost H). apply lookup_insert_eq.
Qed.

(** X13. On the names fallback, the first name that is a key whose position
    cannot be read, or whose value [int] refuses, makes
    [get_available_years] raise that exception: names beyond the values
    give the [IndexError] of the lookup. *)
Theorem names_position_error (s : state) (r : pyval) (pre post : list pyval)
    (name : pyval) (e : exn) :
  years_returned R s r →
  read_by_names r (pre ++ name :: post) →
  Forall (λ other, year_key other = None) pre →
  is_Some (year_key name) →
  py_getitem r (Z.of_nat (List.length pre)) ≫= py_int = Raise e →
  (get_available_years R s).1 = Raise (Propagated e).
Proof.
  intros Hr Hnames Hpre [key Hkey] He.
  rewrite (years_returned_normalized R s _ Hr).
  rewrite (read_by_names_scan r _ Hnames), scan_names_app.
  rewrite (scan_names_no_key r pre 0 ∅ Hpre). cbn [mbind result_bind scan_names].
  rewrite Hkey, !Z.add_0_l.
  destruct (py_getitem r (Z.of_nat (List.length pre))) as [x|e']; cbn in *.
  - by rewrite He.
  - by injection He as <-.
Qed.

(** X14. A [names] attribute that is not [None] and cannot be iterated makes
    [get_available_years] raise the exception of the iteration, not the
    unexpected-return-type error. *)
Theorem names_not_iterable (s : state) (r : pyval) (e : exn) :
  years_returned R s r →
  is_mapping r = false →
  has_rx2 r = false →
  is_None (getattr_names r) = false →
  iterate (getattr_names r) = ([], Some e) →
  (get_available_years R s).1 = Raise (Propagated e).
Proof.
  intros Hr Hmap Hrx Hnone Hit. rewrite (years_returned_normalized R s _ Hr).
  unfold normalize_year_range, has_rx2 in *.
  destruct r as [| | | | | |d|o]; try discriminate.
  destruct (rx2_of (PyObj o)); [discriminate|].
  rewrite Hnone. cbn [negb]. unfold from_names, py_list. rewrite Hit.
  by destruct (has_iter _).
Qed.

End MoreYears.

(** X15. On the names fallback only the positions whose name is a key are read:
    two values with the same names that agree on those positions are
    normalized alike, whatever the other positions hold. *)
Theorem names_read_key_positions_only (r r' : pyval) (names : list pyval) :
  read_by_names r names →
  read_by_names r' names →
  (∀ (j : nat) name,
     names !! j = Some name → is_Some (year_key name) →
     py_getitem r (Z.of_nat j) = py_getitem r' (Z.of_nat j)) →
  normalize_year_range r = normalize_year_range r'.
Proof.
  intros Hr Hr' Hagree.
  rewrite (read_by_names_scan r names Hr), (read_by_names_scan r' names Hr').
  f_equal. apply scan_names_agree. intros j name Hj Hk.
  rewrite Z.add_0_l. apply (Hagree j name); [exact Hj | exact Hk].
Qed.

(** ** The samples at work, continued *)

Lemma sample_years_returned (r : pyval) : years_returned (sample_rpy2 0 r) init r.
Proof.
  exists (sample_pkg r), (_get_pkg (sample_rpy2 0 r) init).2. split; reflexivity.
Qed.

Lemma sample_pkg_stable (years : pyval) : stable (sample_pkg years).
Proof. intros t t'. repeat split. Qed.

Lemma argument_conversion_failure_witness :
  let R := strict_rpy2 (sample_pkg mapping_2015_2025) in
  (fetch_enr_multi R [2020; 2 ^ 31] init).1 = Raise (Propagated OverflowError) ∧
  calls (fetch_enr_multi R [2020; 2 ^ 31] init).2 = 0%nat.
Proof.
  intros R.
  destruct (argument_conversion_failure R init (_get_pkg R init).2
              (sample_pkg mapping_2015_2025) OverflowError eq_refl)
    as (Hcalls & Hmulti & _).
  rewrite (Hmulti [2020; 2 ^ 31] eq_refl). split; [reflexivity | exact Hcalls].
Defined.

Lemma converted_frame_passes_through_witness :
  let R := strict_rpy2 converted_pkg in
  rpy2py R (pandas_frame (sample_rows [2020])) = Raise TypeError ∧
  (fetch_enr R 2020 init).1 = Ok (pandas_frame (sample_rows [2020])).
Proof.
  intros R. split; [reflexivity|].
  destruct (converted_frame_passes_through R init (_get_pkg R init).2
              converted_pkg (pandas_frame (sample_rows [2020])) eq_refl eq_refl)
    as (Hsingle & _).
  exact (Hsingle 2020 eq_refl).
Defined.

Lemma result_conversion_failure_witness :
  let R := strict_rpy2 null_pkg in
  fetch_enr R 2020 init =
    (Raise (Propagated TypeError), called Rfetch_enr (_get_pkg R init).2).
Proof.
  intros R.
  destruct (result_conversion_failure R init (_get_pkg R init).2 null_pkg
              PyNone TypeError eq_refl eq_refl eq_refl)
    as (Hsingle & _).
  exact (Hsingle 2020 eq_refl).
Defined.

Lemma handle_survives_errors_witness :
  let R := sample_rpy2 0 mapping_2015_2025 in
  is_ok (run R (FetchEnr 1999) init).1 = false ∧
  _pkg (exec R init (FetchEnr 1999)) = Some (sample_pkg mapping_2015_2025) ∧
  imports (exec R (exec R init (FetchEnr 1999)) GetAvailableYears) = 1%nat.
Proof.
  intros R. split; [reflexivity|].
  destruct (handle_survives_errors R init (_get_pkg R init).2
              (sample_pkg mapping_2015_2025) (FetchEnr 1999) eq_refl)
    as (Hcache & _ & Hnext).
  split; [exact Hcache|]. exact (proj2 (Hnext GetAvailableYears)).
Defined.

Lemma cached_handle_from_importr_witness :
  let R := sample_rpy2 1 mapping_2015_2025 in
  ∃ t, importr R t "meschooldata" = Ok (sample_pkg mapping_2015_2025).
Proof.
  intros R.
  exact (proj1 (cached_handle_from_importr R [GetPkg; FetchEnr 2020]
                  (sample_pkg mapping_2015_2025) eq_refl)).
Defined.

Lemma outcome_independent_of_history_witness :
  let R := sample_rpy2 0 mapping_2015_2025 in
  (run R GetAvailableYears
     (exec_all R (_get_pkg R init).2 [FetchEnr 1999; FetchEnrMulti [2020; 2021]])).1 =
  (run R GetAvailableYears init).1.
Proof.
  intros R.
  exact (outcome_independent_of_history R init (_get_pkg R init).2
           (sample_pkg mapping_2015_2025)
           [FetchEnr 1999; FetchEnrMulti [2020; 2021]] GetAvailableYears
           eq_refl (sample_pkg_stable mapping_2015_2025)).
Defined.

Lemma mapping_years_witness :
  let d := [("source", PyStr "MDOE"); ("min_year", PyFloat (FFinite 2015 0));
            ("max_year", PyStr "2025")] in
  (get_available_years (sample_rpy2 0 (PyDict d)) init).1 = Ok (year_range 2015 2025).
Proof.
  intros d.
  apply (proj2 (mapping_years (sample_rpy2 0 (PyDict d)) init d (year_range 2015 2025)
                  (sample_years_returned (PyDict d)))).
  exists (PyFloat (FFinite 2015 0)), (PyStr "2025"), 2015, 2025.
  repeat split; reflexivity.
Defined.

Lemma mapping_missing_key_witness :
  let d := [("max_year", PyInt 2025)] in
  (get_available_years (sample_rpy2 0 (PyDict d)) init).1 =
    Raise (Propagated (KeyError "min_year")).
Proof.
  intros d.
  exact (proj1 (mapping_missing_key (sample_rpy2 0 (PyDict d)) init d
                  (sample_years_returned (PyDict d))) eq_refl).
Defined.

Lemma rx2_years_witness :
  let r := list_vector [("min_year", PyInt 2015); ("max_year", PyInt 2025)] in
  (get_available_years (sample_rpy2 0 r) init).1 = Ok (year_range 2015 2025).
Proof.
  intros r.
  assert (∃ rx2, rx2_of r = Some rx2) as [rx2 Hrx] by (by eexists).
  apply (proj2 (rx2_years (sample_rpy2 0 r) init r rx2 (year_range 2015 2025)
                  (sample_years_returned r) eq_refl Hrx)).
  injection Hrx as <-.
  exists (PyList [PyInt 2015]), (PyList [PyInt 2025]), (PyInt 2015), (PyInt 2025),
    2015, 2025.
  repeat split; reflexivity.
Defined.

Lemma names_keys_found_witness :
  let r := names_only ["label"; "max_year"] [PyStr "MDOE"; PyInt 2025] in
  ∃ m, (get_available_years (sample_rpy2 0 r) init).1 = Ok m ∧
       "max_year" ∈ dom m ∧ "min_year" ∉ dom m.
Proof.
  intros r. exists (<["max_year" := 2025]> ∅).
  assert ((get_available_years (sample_rpy2 0 r) init).1 =
            Ok (<["max_year" := 2025]> ∅)) as Hm by reflexivity.
  assert (read_by_names r [PyStr "label"; PyStr "max_year"]) as Hnames
    by (repeat split; reflexivity).
  pose proof (names_keys_found (sample_rpy2 0 r) init r _ _
                (sample_years_returned r) Hnames Hm) as Hkeys.
  split; [exact Hm|]. split.
  - apply Hkeys. split; [unfold year_keys; set_solver|].
    apply elem_of_cons. right. apply elem_of_cons. by left.
  - intros Hin. apply Hkeys in Hin as [_ Hin].
    apply elem_of_cons in Hin as [[=] | Hin].
    apply elem_of_cons in Hin as [[=] | Hin].
    by apply elem_of_nil in Hin.
Defined.

Lemma names_last_position_wins_witness :
  let r := names_only ["min_year"; "max_year"; "min_year"]
             [PyInt 1999; PyInt 2025; PyInt 2015] in
  ∃ m, (get_available_years (sample_rpy2 0 r) init).1 = Ok m ∧
       m !! "min_year" = Some 2015.
Proof.
  intros r. exists (<["min_year" := 2015]> (year_range 1999 2025)).
  assert ((get_available_years (sample_rpy2 0 r) init).1 =
            Ok (<["min_year" := 2015]> (year_range 1999 2025))) as Hm
    by reflexivity.
  split; [exact Hm|].
  destruct (names_last_position_wins (sample_rpy2 0 r) init r
              [PyStr "min_year"; PyStr "max_year"] [] "min_year"
              (<["min_year" := 2015]> (year_range 1999 2025))
              (sample_years_returned r)) as (x & n & Hx & Hn & Hlook).
  - repeat split; reflexivity.
  - unfold year_keys. set_solver.
  - apply not_elem_of_nil.
  - exact Hm.
  - injection Hx as <-. injection Hn as <-. exact Hlook.
Defined.

Lemma names_position_error_witness :
  let r := names_only ["label"; "max_year"; "min_year"] [PyStr "MDOE"] in
  (get_available_years (sample_rpy2 0 r) init).1 = Raise (Propagated IndexError).
Proof.
  intros r.
  assert (Forall (λ other, year_key other = None) [PyStr "label"]) as Hpre
    by (repeat constructor).
  assert (read_by_names r ([PyStr "label"] ++ PyStr "max_year" :: [PyStr "min_year"]))
    as Hnames by (repeat split; reflexivity).
  assert (is_Some (year_key (PyStr "max_year"))) as Hkey by (by eexists).
  exact (names_position_error (sample_rpy2 0 r) init r
           [PyStr "label"] [PyStr "min_year"] (PyStr "max_year") IndexError
           (sample_years_returned r) Hnames Hpre Hkey eq_refl).
Defined.

Lemma names_not_iterable_witness :
  let r := with_names (PyInt 2) [PyInt 2015; PyInt 2025] in
  (get_available_years (sample_rpy2 0 r) init).1 = Raise (Propagated TypeError).
Proof.
  intros r.
  exact (names_not_iterable (sample_rpy2 0 r) init r TypeError
           (sample_years_returned r) eq_refl eq_refl eq_refl eq_refl).
Defined.

Lemma names_read_key_positions_only_witness :
  normalize_year_range
    (names_only ["label"; "min_year"; "max_year"] [PyNone; PyInt 2015; PyInt 2025]) =
  normalize_year_range
    (names_only ["label"; "min_year"; "max_year"]
       [PyStr "MDOE"; PyInt 2015; PyInt 2025; PyNone]).
Proof.
  apply (names_read_key_positions_only _ _
           [PyStr "label"; PyStr "min_year"; PyStr "max_year"]).
  - repeat split; reflexivity.
  - repeat split; reflexivity.
  - intros [|[|[|j]]] name; cbn; intros [= <-] [key Hkey];
      first [reflexivity | discriminate].
Defined.
